(** * CustomShadersDeclarations: the white-noise compute shader and its manager

    A shallow embedding of
    [Source/CustomShadersDeclarations/Private/ComputeShaderDeclaration.cpp]:
    the global shader class [FWhiteNoiseCS] with its two compile-time hooks,
    its registration, and the manager [FWhiteNoiseCSManager] whose
    render-thread callback allocates a pooled texture, builds a render graph,
    dispatches the shader and copies the result.

    The file is glue against the host engine.  The engine's objects are
    modelled by what the source asks of them: every engine call that has an
    effect is appended, with its arguments, to the trace [Calls] of the world,
    and the values it hands back are records built from those arguments. *)

From Stdlib Require Import ZArith Lia Bool.
From stdpp Require Import base strings list gmap pretty.

Local Open Scope string_scope.

(** ** 32-bit signed integers

    [FIntPoint] and [FIntVector] hold [int32] components, and the literal
    [NUM_THREADS_PER_GROUP_DIMENSION] is an [int].  Values are kept in [Z];
    every arithmetic result is brought back into the 32-bit range. *)

Definition INT32_MAX : Z := 2147483647.

Definition int32_wrap (z : Z) : Z := ((z + 2 ^ 31) mod 2 ^ 32 - 2 ^ 31)%Z.

Definition int32_add (a b : Z) : Z := int32_wrap (a + b).
Definition int32_sub (a b : Z) : Z := int32_wrap (a - b).
(** C++ division truncates toward zero. *)
Definition int32_div (a b : Z) : Z := int32_wrap (Z.quot a b).

(** [#define NUM_THREADS_PER_GROUP_DIMENSION 32] *)
Definition NUM_THREADS_PER_GROUP_DIMENSION : Z := 32.

Module FMath.
(** The engine's [FMath::DivideAndRoundUp(Dividend, Divisor)], which is
    [(Dividend + Divisor - 1) / Divisor], at type [int32]: the sum, the
    difference and the quotient are each an [int32] operation. *)
Definition DivideAndRoundUp (Dividend Divisor : Z) : Z :=
  int32_div (int32_sub (int32_add Dividend Divisor) 1) Divisor.
End FMath.

(** ** Engine data the source names *)

Module ERHIFeatureLevel.
Inductive Type_ := ES2_REMOVED | ES3_1 | SM4_REMOVED | SM5 | Num.
End ERHIFeatureLevel.

Inductive EShaderFrequency :=
  | SF_Vertex | SF_Hull | SF_Domain | SF_Pixel | SF_Geometry | SF_Compute
  | SF_RayGen | SF_RayMiss | SF_RayHitGroup | SF_RayCallable.

Inductive EPixelFormat :=
  | PF_Unknown | PF_R32_UINT | PF_R16F
  | PF_Other (n : nat).

Inductive FClearValueBinding := FClearValueBinding_None.

Inductive ERenderTargetTexture := Targetable | ShaderResource.

Module ERDGTextureFlags.
Inductive Type_ := None_ | MultiFrame.
End ERDGTextureFlags.

Module ERDGPassFlags.
Inductive Type_ := None_ | Raster | Compute | AsyncCompute | Copy.
End ERDGPassFlags.

Record FIntPoint := { X : Z; Y : Z }.

Record FIntVector := { VX : Z; VY : Z; VZ : Z }.

(** [FPooledRenderTargetDesc::Create2DDesc] stores its arguments. *)
Record FPooledRenderTargetDesc := Create2DDesc {
  Extent : FIntPoint;
  Format : EPixelFormat;
  ClearValue : FClearValueBinding;
  Flags : Z;
  TargetableFlags : Z;
  bForceSeparateTargetAndShaderResource : bool
}.

(** [FRDGTextureDesc::Create2D] stores its arguments. *)
Record FRDGTextureDesc := Create2D {
  RDGExtent : FIntPoint;
  RDGFormat : EPixelFormat;
  RDGClearValue : FClearValueBinding;
  RDGFlags : Z
}.

(** An RHI texture is either one a caller's render target owns or one that
    the render-target pool made for a descriptor. *)
Inductive FRHITexture :=
  | CallerTexture (id : nat) (fmt : EPixelFormat)
  | PoolTexture (slot : nat) (desc : FPooledRenderTargetDesc).

Definition GetFormat (t : FRHITexture) : EPixelFormat :=
  match t with
  | CallerTexture _ fmt => fmt
  | PoolTexture _ desc => Format desc
  end.

Definition GetTexture2D (t : FRHITexture) : FRHITexture := t.

(** [FTextureRenderTargetResource], as far as the source reads it. *)
Record FTextureRenderTargetResource := {
  GetRenderTargetTexture : FRHITexture;
  TextureRHI : FRHITexture
}.

Record UTextureRenderTarget2D := {
  GetRenderTargetResource : FTextureRenderTargetResource
}.

Record FSceneRenderTargetItem := { ShaderResourceTexture : FRHITexture }.

(** An element handed out by the render-target pool. *)
Record IPooledRenderTarget := {
  PoolSlot : nat;
  GetDesc : FPooledRenderTargetDesc;
  PoolDebugName : string
}.

Definition GetRenderTargetItem (p : IPooledRenderTarget) : FSceneRenderTargetItem :=
  {| ShaderResourceTexture := PoolTexture (PoolSlot p) (GetDesc p) |}.

Inductive FRHICopyTextureInfo := FRHICopyTextureInfo_default.

(** A global shader type, as [IMPLEMENT_GLOBAL_SHADER] registers it. *)
Record FShaderType := IMPLEMENT_GLOBAL_SHADER {
  ShaderTypeName : string;
  SourceFilename : string;
  FunctionName : string;
  Frequency : EShaderFrequency
}.

Definition FGlobalShaderMap := ERHIFeatureLevel.Type_.
Definition GetGlobalShaderMap (FeatureLevel : ERHIFeatureLevel.Type_) : FGlobalShaderMap :=
  FeatureLevel.

(** [TShaderMapRef<ShaderType>(ShaderMap)] *)
Record TShaderMapRef := {
  RefShaderType : FShaderType;
  RefShaderMap : FGlobalShaderMap
}.

(** ** Render graph values *)

Record FRDGTexture := {
  PooledRenderTarget : IPooledRenderTarget;
  RDGTextureName : string;
  RenderTargetTextureKind : ERenderTargetTexture;
  RDGTextureFlags : ERDGTextureFlags.Type_
}.

Record FRDGTextureUAVDesc := { UAVDescTexture : FRDGTexture }.

Record FRDGTextureUAV := { UAVDesc : FRDGTextureUAVDesc }.

(** ** What the source takes from outside this file

    The engine's platform enumeration and the members of
    [FShaderCompilerEnvironment] other than its definitions are kept
    abstract. *)

Class HostTypes := {
  EShaderPlatform : Type;
  FShaderCompilerSettings : Type
}.

Section ShaderDeclarations.
Context `{HostTypes}.

Record FGlobalShaderPermutationParameters := {
  Platform : EShaderPlatform;
  PermutationId : Z
}.

Record FShaderCompilerEnvironment := {
  Definitions : gmap string string;
  Settings : FShaderCompilerSettings
}.

(** [FShaderCompilerEnvironment::SetDefine(const TCHAR*, int32)] stores the
    value printed in decimal under the name, replacing an earlier one. *)
Definition SetDefine (Name : string) (Value : Z)
    (Env : FShaderCompilerEnvironment) : FShaderCompilerEnvironment :=
  {| Definitions := <[Name := pretty Value]> (Definitions Env);
     Settings := Settings Env |}.
End ShaderDeclarations.

(** The engine functions that the two hooks of the shader class call. *)
Class HostEngine `{HostTypes} := {
  IsFeatureLevelSupported : EShaderPlatform -> ERHIFeatureLevel.Type_ -> bool;
  FGlobalShader_ModifyCompilationEnvironment :
    FGlobalShaderPermutationParameters -> FShaderCompilerEnvironment ->
    FShaderCompilerEnvironment
}.

(** The texture-creation flag bits that [UpdateResults] combines. *)
Class RHIDefinitions := {
  TexCreate_None : Z;
  TexCreate_ShaderResource : Z;
  TexCreate_UAV : Z
}.

(** ** [class FWhiteNoiseCS : public FGlobalShader] *)

Module FWhiteNoiseCS.
(** [BEGIN_SHADER_PARAMETER_STRUCT(FParameters, )]: one UAV slot, null
    until it is assigned. *)
Record FParameters := { OutputTexture : option FRDGTextureUAV }.

(** [Parameters->OutputTexture = v;] *)
Definition set_OutputTexture (v : option FRDGTextureUAV) (p : FParameters)
    : FParameters :=
  {| OutputTexture := v |}.

Section Hooks.
Context `{HostEngine}.

Definition ShouldCompilePermutation
    (Parameters : FGlobalShaderPermutationParameters) : bool :=
  IsFeatureLevelSupported (Platform Parameters) ERHIFeatureLevel.SM5.

Definition ModifyCompilationEnvironment
    (Parameters : FGlobalShaderPermutationParameters)
    (OutEnvironment : FShaderCompilerEnvironment) : FShaderCompilerEnvironment :=
  let OutEnvironment :=
    FGlobalShader_ModifyCompilationEnvironment Parameters OutEnvironment in
  let OutEnvironment :=
    SetDefine "THREADGROUPSIZE_X" NUM_THREADS_PER_GROUP_DIMENSION OutEnvironment in
  let OutEnvironment :=
    SetDefine "THREADGROUPSIZE_Y" NUM_THREADS_PER_GROUP_DIMENSION OutEnvironment in
  SetDefine "THREADGROUPSIZE_Z" 1 OutEnvironment.
End Hooks.

(** [IMPLEMENT_GLOBAL_SHADER(FWhiteNoiseCS, "/CustomShaders/WhiteNoiseCS.usf",
    "MainComputeShader", SF_Compute);] *)
Definition StaticType : FShaderType :=
  IMPLEMENT_GLOBAL_SHADER "FWhiteNoiseCS" "/CustomShaders/WhiteNoiseCS.usf"
                          "MainComputeShader" SF_Compute.
End FWhiteNoiseCS.

(** The shader types this translation unit implements, in source order. *)
Definition ImplementedShaderTypes : list FShaderType := [FWhiteNoiseCS.StaticType].

(** ** The manager's data

    Modelled from the spec: [ComputeShaderDeclaration.h], which declares
    [FWhiteNoiseCSParameters] and [FWhiteNoiseCSManager], is not among the
    sources.  The records hold the members the source reads and writes: the
    caller-supplied render target (null when absent) with the size that
    [GetRenderTargetSize()] returns, and the manager's cached parameters
    with their validity flag. *)

Record FWhiteNoiseCSParameters := {
  RenderTarget : option UTextureRenderTarget2D;
  GetRenderTargetSize : FIntPoint
}.

Record FWhiteNoiseCSManager := {
  cachedParams : FWhiteNoiseCSParameters;
  bCachedParamsAreValid : bool
}.

(** Modelled from the spec: the constructor of [FWhiteNoiseCSManager] is in
    the missing header; the state of a newly made manager is a parameter. *)
Class ManagerHeader := { FWhiteNoiseCSManager_new : FWhiteNoiseCSManager }.

(** ** Closures, passes and the engine trace *)

(** The lambda given to [AddPass]:
    [[PassParameters, WhiteNoiseCS, ThreadGroupCount](FRHICommandList&)]. *)
Record FComputeWhiteNoiseLambda := {
  cap_PassParameters : FWhiteNoiseCS.FParameters;
  cap_WhiteNoiseCS : TShaderMapRef;
  cap_ThreadGroupCount : FIntVector
}.

Record FRDGPass := {
  PassName : string;
  PassParameterStruct : FWhiteNoiseCS.FParameters;
  PassFlags : ERDGPassFlags.Type_;
  ExecuteLambda : FComputeWhiteNoiseLambda
}.

(** [FRDGBuilder]: a local of [UpdateResults]. *)
Record FRDGBuilder := {
  ExternalTextures : list FRDGTexture;
  UAVs : list FRDGTextureUAV;
  Passes : list FRDGPass
}.

(** The lambda given to [ENQUEUE_RENDER_COMMAND(CaptureCommand)]; it captures
    nothing. *)
Inductive FRenderCommand := CaptureCommand.

Inductive EngineCall :=
  | Call_FindFreeElement (Desc : FPooledRenderTargetDesc) (InDebugName : string)
  | Call_RegisterExternalTexture (Texture : FRDGTexture)
  | Call_CreateUAV (UAV : FRDGTextureUAV)
  | Call_AllocParameters
  | Call_AddPass (Pass : FRDGPass)
  | Call_Execute (Graph : FRDGBuilder)
  | Call_Dispatch (Shader : TShaderMapRef) (Parameters : FWhiteNoiseCS.FParameters)
                  (GroupCount : FIntVector)
  | Call_CopyTexture (SourceTexture DestTexture : FRHITexture)
                     (CopyInfo : FRHICopyTextureInfo).

Inductive ENamedThreads := GameThread | ActualRenderingThread.

(** ** The world *)

Record World := {
  (** [FWhiteNoiseCSManager* FWhiteNoiseCSManager::instance]; [None] is
      [nullptr], [Some a] the address of a manager. *)
  instance : option nat;
  (** the managers made by [new], by address *)
  Managers : list FWhiteNoiseCSManager;
  (** the engine's list of global shader types *)
  GlobalShaderTypes : list FShaderType;
  (** the thread the running code is on *)
  CurrentThread : ENamedThreads;
  GMaxRHIFeatureLevel : ERHIFeatureLevel.Type_;
  (** commands waiting for the rendering thread, oldest first *)
  RenderCommandQueue : list FRenderCommand;
  (** elements the render-target pool handed out so far *)
  GRenderTargetPool : list IPooledRenderTarget;
  (** the engine calls made so far, oldest first *)
  Calls : list EngineCall
}.

(** Assignments to one member of the world. *)

Definition set_instance (v : option nat) (w : World) : World :=
  {| instance := v; Managers := Managers w;
     GlobalShaderTypes := GlobalShaderTypes w; CurrentThread := CurrentThread w;
     GMaxRHIFeatureLevel := GMaxRHIFeatureLevel w;
     RenderCommandQueue := RenderCommandQueue w;
     GRenderTargetPool := GRenderTargetPool w; Calls := Calls w |}.

Definition set_Managers (v : list FWhiteNoiseCSManager) (w : World) : World :=
  {| instance := instance w; Managers := v;
     GlobalShaderTypes := GlobalShaderTypes w; CurrentThread := CurrentThread w;
     GMaxRHIFeatureLevel := GMaxRHIFeatureLevel w;
     RenderCommandQueue := RenderCommandQueue w;
     GRenderTargetPool := GRenderTargetPool w; Calls := Calls w |}.

Definition set_GlobalShaderTypes (v : list FShaderType) (w : World) : World :=
  {| instance := instance w; Managers := Managers w;
     GlobalShaderTypes := v; CurrentThread := CurrentThread w;
     GMaxRHIFeatureLevel := GMaxRHIFeatureLevel w;
     RenderCommandQueue := RenderCommandQueue w;
     GRenderTargetPool := GRenderTargetPool w; Calls := Calls w |}.

Definition set_CurrentThread (v : ENamedThreads) (w : World) : World :=
  {| instance := instance w; Managers := Managers w;
     GlobalShaderTypes := GlobalShaderTypes w; CurrentThread := v;
     GMaxRHIFeatureLevel := GMaxRHIFeatureLevel w;
     RenderCommandQueue := RenderCommandQueue w;
     GRenderTargetPool := GRenderTargetPool w; Calls := Calls w |}.

Definition set_RenderCommandQueue (v : list FRenderCommand) (w : World) : World :=
  {| instance := instance w; Managers := Managers w;
     GlobalShaderTypes := GlobalShaderTypes w; CurrentThread := CurrentThread w;
     GMaxRHIFeatureLevel := GMaxRHIFeatureLevel w;
     RenderCommandQueue := v;
     GRenderTargetPool := GRenderTargetPool w; Calls := Calls w |}.

Definition set_GRenderTargetPool (v : list IPooledRenderTarget) (w : World) : World :=
  {| instance := instance w; Managers := Managers w;
     GlobalShaderTypes := GlobalShaderTypes w; CurrentThread := CurrentThread w;
     GMaxRHIFeatureLevel := GMaxRHIFeatureLevel w;
     RenderCommandQueue := RenderCommandQueue w;
     GRenderTargetPool := v; Calls := Calls w |}.

Definition set_Calls (v : list EngineCall) (w : World) : World :=
  {| instance := instance w; Managers := Managers w;
     GlobalShaderTypes := GlobalShaderTypes w; CurrentThread := CurrentThread w;
     GMaxRHIFeatureLevel := GMaxRHIFeatureLevel w;
     RenderCommandQueue := RenderCommandQueue w;
     GRenderTargetPool := GRenderTargetPool w; Calls := v |}.

(** ** Computations over the world that may stop the program *)

Inductive Failure :=
  | AssertionFailed (expr : string)
  | AccessViolation.

Inductive Outcome (A : Type) :=
  | Done (a : A) (w : World)
  | Crash (f : Failure).
Arguments Done {A} a w.
Arguments Crash {A} f.

Definition M (A : Type) : Type := World -> Outcome A.

#[global] Instance M_ret : MRet M := fun A (a : A) (w : World) => Done a w.

#[global] Instance M_bind : MBind M := fun A B (f : A -> M B) (c : M A) (w : World) =>
  match c w with
  | Done a w' => f a w'
  | Crash e => Crash e
  end.

Definition crash {A} (f : Failure) : M A := fun _ => Crash f.
Definition gets {A} (f : World -> A) : M A := fun w => Done (f w) w.
Definition modify (f : World -> World) : M unit := fun w => Done tt (f w).
Definition record_call (c : EngineCall) : M unit :=
  modify (fun w => set_Calls (Calls w ++ [c]) w).

(** [p->...] on a pointer that may be null. *)
Definition deref {A} (p : option A) : M A :=
  match p with
  | Some a => mret a
  | None => crash AccessViolation
  end.

(** A pointer in a condition is true when it is not null. *)
Definition to_bool {A} (p : option A) : bool :=
  match p with Some _ => true | None => false end.

(** Reading and writing the members of the manager at address [this]. *)
Definition read_this (this : nat) : M FWhiteNoiseCSManager :=
  fun w => match Managers w !! this with
           | Some m => Done m w
           | None => Crash AccessViolation
           end.

Definition write_this (this : nat) (f : FWhiteNoiseCSManager -> FWhiteNoiseCSManager)
    : M unit :=
  fun w => match Managers w !! this with
           | Some m => Done tt (set_Managers (<[this := f m]> (Managers w)) w)
           | None => Crash AccessViolation
           end.

(** ** The engine calls of the source *)

(** [check(expr)] stops the program when [expr] is false. *)
Definition check (expr : bool) (text : string) : M unit :=
  if expr then mret tt else crash (AssertionFailed text).

Definition IsInRenderingThread : M bool :=
  gets (fun w => match CurrentThread w with
                 | ActualRenderingThread => true
                 | GameThread => false
                 end).

(** [ENQUEUE_RENDER_COMMAND(Name)(lambda)] appends the command to the queue
    of the rendering thread. *)
Definition ENQUEUE_RENDER_COMMAND (cmd : FRenderCommand) : M unit :=
  modify (fun w => set_RenderCommandQueue (RenderCommandQueue w ++ [cmd]) w).

(** [GRenderTargetPool.FindFreeElement(RHICmdList, Desc, Out, InDebugName)]
    leaves in [Out] an element of the pool that has the descriptor [Desc]. *)
Definition FindFreeElement (Desc : FPooledRenderTargetDesc) (InDebugName : string)
    : M IPooledRenderTarget :=
  record_call (Call_FindFreeElement Desc InDebugName);;
  slot ← gets (fun w => length (GRenderTargetPool w));
  let Out := {| PoolSlot := slot; GetDesc := Desc; PoolDebugName := InDebugName |} in
  modify (fun w => set_GRenderTargetPool (GRenderTargetPool w ++ [Out]) w);;
  mret Out.

Module GraphBuilder.
(** [FRDGBuilder GraphBuilder(RHICmdList);] *)
Definition Create : FRDGBuilder :=
  {| ExternalTextures := []; UAVs := []; Passes := [] |}.

Definition RegisterExternalTexture (G : FRDGBuilder)
    (ExternalPooledTexture : IPooledRenderTarget) (Name : string)
    (RenderTargetTexture : ERenderTargetTexture) (Flags : ERDGTextureFlags.Type_)
    : M (FRDGTexture * FRDGBuilder) :=
  let Texture := {| PooledRenderTarget := ExternalPooledTexture;
                    RDGTextureName := Name;
                    RenderTargetTextureKind := RenderTargetTexture;
                    RDGTextureFlags := Flags |} in
  record_call (Call_RegisterExternalTexture Texture);;
  mret (Texture, {| ExternalTextures := ExternalTextures G ++ [Texture];
                    UAVs := UAVs G; Passes := Passes G |}).

Definition CreateUAV (G : FRDGBuilder) (Desc : FRDGTextureUAVDesc)
    : M (FRDGTextureUAV * FRDGBuilder) :=
  let UAV := {| UAVDesc := Desc |} in
  record_call (Call_CreateUAV UAV);;
  mret (UAV, {| ExternalTextures := ExternalTextures G;
                UAVs := UAVs G ++ [UAV]; Passes := Passes G |}).

(** [AllocParameters<FWhiteNoiseCS::FParameters>()] gives a zeroed struct. *)
Definition AllocParameters : M FWhiteNoiseCS.FParameters :=
  record_call Call_AllocParameters;;
  mret {| FWhiteNoiseCS.OutputTexture := None |}.

Definition AddPass (G : FRDGBuilder) (Name : string)
    (ParameterStruct : FWhiteNoiseCS.FParameters) (Flags : ERDGPassFlags.Type_)
    (Lambda : FComputeWhiteNoiseLambda) : M FRDGBuilder :=
  let Pass := {| PassName := Name; PassParameterStruct := ParameterStruct;
                 PassFlags := Flags; ExecuteLambda := Lambda |} in
  record_call (Call_AddPass Pass);;
  mret {| ExternalTextures := ExternalTextures G; UAVs := UAVs G;
          Passes := Passes G ++ [Pass] |}.
End GraphBuilder.

(** [FComputeShaderUtils::Dispatch(RHICmdList, Shader, Parameters, GroupCount)] *)
Definition FComputeShaderUtils_Dispatch (ComputeShader : TShaderMapRef)
    (Parameters : FWhiteNoiseCS.FParameters) (GroupCount : FIntVector) : M unit :=
  record_call (Call_Dispatch ComputeShader Parameters GroupCount).

(** The body of the pass lambda. *)
Definition invoke_pass_lambda (L : FComputeWhiteNoiseLambda) : M unit :=
  FComputeShaderUtils_Dispatch (cap_WhiteNoiseCS L) (cap_PassParameters L)
                               (cap_ThreadGroupCount L).

Fixpoint execute_passes (ps : list FRDGPass) : M unit :=
  match ps with
  | [] => mret tt
  | p :: ps' => invoke_pass_lambda (ExecuteLambda p);; execute_passes ps'
  end.

(** [GraphBuilder.Execute()] runs the lambdas of the passes in the order in
    which they were added. *)
Definition FRDGBuilder_Execute (G : FRDGBuilder) : M unit :=
  record_call (Call_Execute G);;
  execute_passes (Passes G).

(** [RHICmdList.CopyTexture(SourceTexture, DestTexture, CopyInfo)] *)
Definition RHICmdList_CopyTexture (SourceTexture DestTexture : FRHITexture)
    (CopyInfo : FRHICopyTextureInfo) : M unit :=
  record_call (Call_CopyTexture SourceTexture DestTexture CopyInfo).

(** ** [class FWhiteNoiseCSManager] *)

Section Manager.
Context `{RHIDefinitions} `{ManagerHeader}.

(** [new FWhiteNoiseCSManager()]: the new object gets the next address. *)
Definition new_FWhiteNoiseCSManager : M nat :=
  a ← gets (fun w => length (Managers w));
  modify (fun w => set_Managers (Managers w ++ [FWhiteNoiseCSManager_new]) w);;
  mret a.

(** Modelled from the spec: [FWhiteNoiseCSManager::Get()] is defined in the
    missing header.  The spec calls the manager a singleton, and the source
    starts [instance] as [nullptr] and calls [Get()->UpdateResults]: [Get]
    makes the manager when [instance] is null, keeps its address in
    [instance], and returns [instance]. *)
Definition Get : M nat :=
  p ← gets instance;
  match p with
  | Some a => mret a
  | None =>
      a ← new_FWhiteNoiseCSManager;
      modify (set_instance (Some a));;
      mret a
  end.

Definition BeginRendering (this : nat) : M unit :=
  ENQUEUE_RENDER_COMMAND CaptureCommand.

Definition EndRendering (this : nat) : M unit :=
  mret tt.

Definition UpdateParameters (this : nat) (params : FWhiteNoiseCSParameters) : M unit :=
  write_this this (fun m => {| cachedParams := params;
                               bCachedParamsAreValid := bCachedParamsAreValid m |});;
  write_this this (fun m => {| cachedParams := cachedParams m;
                               bCachedParamsAreValid := true |}).

(** The thread-group count of lines 118-119. *)
Definition ThreadGroupCount_of (Size : FIntPoint) : FIntVector :=
  {| VX := FMath.DivideAndRoundUp (X Size) NUM_THREADS_PER_GROUP_DIMENSION;
     VY := FMath.DivideAndRoundUp (Y Size) NUM_THREADS_PER_GROUP_DIMENSION;
     VZ := 1 |}.

(** The members are read through [this]; no statement of the function writes
    them, so they are read once. *)
Definition UpdateResults (this : nat) : M unit :=
  m ← read_this this;
  let cachedParams := cachedParams m in
  if negb (bCachedParamsAreValid m && to_bool (RenderTarget cachedParams))
  then mret tt
  else
    InThread ← IsInRenderingThread;
    check InThread "IsInRenderingThread()";;
    FeatureLevel ← gets GMaxRHIFeatureLevel;
    let ShaderMap := GetGlobalShaderMap FeatureLevel in
    RT ← deref (RenderTarget cachedParams);
    let OutTexture := GetRenderTargetTexture (GetRenderTargetResource RT) in
    let TexDesc :=
      Create2DDesc (GetRenderTargetSize cachedParams)
                   (GetFormat (TextureRHI (GetRenderTargetResource RT)))
                   FClearValueBinding_None TexCreate_None
                   (Z.lor TexCreate_ShaderResource TexCreate_UAV) false in
    let Desc :=
      Create2D (GetRenderTargetSize cachedParams) PF_R32_UINT
               FClearValueBinding_None
               (Z.lor TexCreate_ShaderResource TexCreate_UAV) in
    let DescFloat :=
      Create2D (GetRenderTargetSize cachedParams) PF_R16F
               FClearValueBinding_None
               (Z.lor TexCreate_ShaderResource TexCreate_UAV) in
    PooledCustomTexture ← FindFreeElement TexDesc "CustomTexture";
    let G := GraphBuilder.Create in
    '(CustomTexture, G) ←
      GraphBuilder.RegisterExternalTexture G PooledCustomTexture "CustomTexture"
                                           ShaderResource ERDGTextureFlags.MultiFrame;
    '(CustomTextureUAV, G) ←
      GraphBuilder.CreateUAV G {| UAVDescTexture := CustomTexture |};
    let WhiteNoiseCS := {| RefShaderType := FWhiteNoiseCS.StaticType;
                           RefShaderMap := ShaderMap |} in
    PassParameters ← GraphBuilder.AllocParameters;
    let PassParameters :=
      FWhiteNoiseCS.set_OutputTexture (Some CustomTextureUAV) PassParameters in
    let ThreadGroupCount := ThreadGroupCount_of (GetRenderTargetSize cachedParams) in
    G ← GraphBuilder.AddPass G "ComputeWhiteNoise" PassParameters
                             ERDGPassFlags.Compute
                             {| cap_PassParameters := PassParameters;
                                cap_WhiteNoiseCS := WhiteNoiseCS;
                                cap_ThreadGroupCount := ThreadGroupCount |};
    FRDGBuilder_Execute G;;
    RHICmdList_CopyTexture
      (ShaderResourceTexture (GetRenderTargetItem PooledCustomTexture))
      (GetTexture2D OutTexture) FRHICopyTextureInfo_default.

(** The body of the lambda of [BeginRendering]:
    [FWhiteNoiseCSManager::Get()->UpdateResults(RHICmdList);] *)
Definition execute_render_command (cmd : FRenderCommand) : M unit :=
  match cmd with
  | CaptureCommand => this ← Get; UpdateResults this
  end.

(** The rendering thread takes the oldest queued command and runs it. *)
Definition RenderingThread_Tick : M unit :=
  q ← gets RenderCommandQueue;
  match q with
  | [] => mret tt
  | cmd :: rest =>
      caller ← gets CurrentThread;
      modify (set_RenderCommandQueue rest);;
      modify (set_CurrentThread ActualRenderingThread);;
      execute_render_command cmd;;
      modify (set_CurrentThread caller)
  end.

(** Static initialisation of the translation unit: the shader type is
    registered and [instance] is [nullptr]. *)
Definition StaticInitialization (w : World) : World :=
  set_instance None
    (set_GlobalShaderTypes (GlobalShaderTypes w ++ ImplementedShaderTypes) w).

(** What a client of the module, or the rendering thread, can do next. *)
Inductive Operation :=
  | Op_Get
  | Op_BeginRendering
  | Op_EndRendering
  | Op_UpdateParameters (params : FWhiteNoiseCSParameters)
  | Op_RenderingThreadTick.

Definition perform (op : Operation) : M unit :=
  match op with
  | Op_Get => _ ← Get; mret tt
  | Op_BeginRendering => this ← Get; BeginRendering this
  | Op_EndRendering => this ← Get; EndRendering this
  | Op_UpdateParameters params => this ← Get; UpdateParameters this params
  | Op_RenderingThreadTick => RenderingThread_Tick
  end.

(** The worlds a program reaches from a load of the module, before which no
    manager exists. *)
Inductive Reachable : World -> Prop :=
  | Reachable_loaded (w0 : World) :
      Managers w0 = [] -> Reachable (StaticInitialization w0)
  | Reachable_step (w w' : World) (op : Operation) :
      Reachable w -> perform op w = Done tt w' -> Reachable w'.

End Manager.

(** ** Reading a trace *)

Definition is_allocation (c : EngineCall) : bool :=
  match c with Call_FindFreeElement _ _ => true | _ => false end.

Definition is_pass_addition (c : EngineCall) : bool :=
  match c with Call_AddPass _ => true | _ => false end.

Definition is_dispatch (c : EngineCall) : bool :=
  match c with Call_Dispatch _ _ _ => true | _ => false end.

Definition is_copy (c : EngineCall) : bool :=
  match c with Call_CopyTexture _ _ _ => true | _ => false end.

(** The calls of one kind in a trace, oldest first. *)
Definition allocations (cs : list EngineCall) : list EngineCall :=
  List.filter is_allocation cs.
Definition pass_additions (cs : list EngineCall) : list EngineCall :=
  List.filter is_pass_addition cs.
Definition dispatches (cs : list EngineCall) : list EngineCall :=
  List.filter is_dispatch cs.
Definition copies (cs : list EngineCall) : list EngineCall :=
  List.filter is_copy cs.

(** The thread-group counts of the dispatches of a trace, oldest first. *)
Fixpoint dispatched_group_counts (cs : list EngineCall) : list FIntVector :=
  match cs with
  | [] => []
  | Call_Dispatch _ _ GroupCount :: cs' => GroupCount :: dispatched_group_counts cs'
  | _ :: cs' => dispatched_group_counts cs'
  end.

(** The quotient of [a] by [b] rounded up, over the integers: the least [n]
    with [a <= b * n] when [b] is positive. *)
Definition ceil_quotient (a b : Z) : Z := (- ((- a) / b))%Z.

(** The singleton discipline: no manager before the first [Get], and from
    then on one manager, whose address [instance] holds. *)
Definition Singleton (w : World) : Prop :=
  match instance w with
  | None => Managers w = []
  | Some a => a = 0 /\ length (Managers w) = 1
  end.

(** ** Sample values, for running the definitions *)

Definition sample_RHIDefinitions : RHIDefinitions :=
  {| TexCreate_None := 0; TexCreate_ShaderResource := 8; TexCreate_UAV := 65536 |}.

Definition sample_ManagerHeader : ManagerHeader :=
  {| FWhiteNoiseCSManager_new :=
       {| cachedParams := {| RenderTarget := None;
                             GetRenderTargetSize := {| X := 0; Y := 0 |} |};
          bCachedParamsAreValid := false |} |}.

Definition sample_RenderTarget : UTextureRenderTarget2D :=
  {| GetRenderTargetResource :=
       {| GetRenderTargetTexture := CallerTexture 7 (PF_Other 2);
          TextureRHI := CallerTexture 7 (PF_Other 2) |} |}.

Definition sample_params (W H : Z) : FWhiteNoiseCSParameters :=
  {| RenderTarget := Some sample_RenderTarget;
     GetRenderTargetSize := {| X := W; Y := H |} |}.

(** A world with one manager, at address 0, whose cached parameters are
    valid and hold the sample render target of size [W] by [H]. *)
Definition sample_world (thread : ENamedThreads) (W H : Z) : World :=
  {| instance := Some 0;
     Managers := [{| cachedParams := sample_params W H;
                     bCachedParamsAreValid := true |}];
     GlobalShaderTypes := ImplementedShaderTypes;
     CurrentThread := thread;
     GMaxRHIFeatureLevel := ERHIFeatureLevel.SM5;
     RenderCommandQueue := [];
     GRenderTargetPool := [];
     Calls := [] |}.

(** A world of the engine before the module is loaded. *)
Definition sample_engine : World :=
  {| instance := None; Managers := []; GlobalShaderTypes := [];
     CurrentThread := GameThread;
     GMaxRHIFeatureLevel := ERHIFeatureLevel.SM5;
     RenderCommandQueue := []; GRenderTargetPool := []; Calls := [] |}.

Definition sample_HostTypes : HostTypes :=
  {| EShaderPlatform := nat; FShaderCompilerSettings := unit |}.

(** A host that supports SM5 on its platforms 0 to 2 and whose base hook
    defines [THREADGROUPSIZE_X] itself. *)
Definition sample_HostEngine : @HostEngine sample_HostTypes :=
  {| IsFeatureLevelSupported := fun (p : @EShaderPlatform sample_HostTypes) l =>
       match l with
       | ERHIFeatureLevel.SM5 => Nat.ltb p 3
       | _ => true
       end;
     FGlobalShader_ModifyCompilationEnvironment := fun _ Env =>
       @SetDefine sample_HostTypes "THREADGROUPSIZE_X" 8 Env |}.

(** ** Sequences of operations *)

Fixpoint repeat_M (n : nat) (c : M unit) : M unit :=
  match n with
  | 0 => mret tt
  | S n' => c;; repeat_M n' c
  end.

Section Sequences.
Context `{RHIDefinitions} `{ManagerHeader}.

Fixpoint perform_all (ops : list Operation) : M unit :=
  match ops with
  | [] => mret tt
  | op :: ops' => perform op;; perform_all ops'
  end.

End Sequences.

Definition is_begin (op : Operation) : bool :=
  match op with Op_BeginRendering => true | _ => false end.

Definition is_tick (op : Operation) : bool :=
  match op with Op_RenderingThreadTick => true | _ => false end.

(** The number of [BeginRendering] calls among operations. *)
Definition count_begin (ops : list Operation) : nat :=
  length (List.filter is_begin ops).

(** The destination textures of the copies of a trace, oldest first. *)
Fixpoint copy_destinations (cs : list EngineCall) : list FRHITexture :=
  match cs with
  | [] => []
  | Call_CopyTexture _ DestTexture _ :: cs' => DestTexture :: copy_destinations cs'
  | _ :: cs' => copy_destinations cs'
  end.

(** [w'] has, over [w], [k] more pool elements and [k] more calls of each
    of the four kinds. *)
Definition engine_work (k : nat) (w w' : World) : Prop :=
  length (GRenderTargetPool w') = length (GRenderTargetPool w) + k /\
  length (allocations (Calls w')) = length (allocations (Calls w)) + k /\
  length (pass_additions (Calls w')) = length (pass_additions (Calls w)) + k /\
  length (dispatches (Calls w')) = length (dispatches (Calls w)) + k /\
  length (copies (Calls w')) = length (copies (Calls w)) + k.

(** * Properties *)

(** ** Running computations *)

Lemma bind_Done {A B} (c : M A) (f : A -> M B) (w w' : World) (a : A) :
  c w = Done a w' -> (c ≫= f) w = f a w'.
Proof. intros E. unfold mbind, M_bind. now rewrite E. Qed.

Lemma bind_Crash {A B} (c : M A) (f : A -> M B) (w : World) (e : Failure) :
  c w = Crash e -> (c ≫= f) w = Crash e.
Proof. intros E. unfold mbind, M_bind. now rewrite E. Qed.

Lemma bind_inv {A B} (c : M A) (f : A -> M B) (w w' : World) (b : B) :
  (c ≫= f) w = Done b w' ->
  exists a w1, c w = Done a w1 /\ f a w1 = Done b w'.
Proof.
  unfold mbind, M_bind. destruct (c w) as [a w1|e]; [|discriminate].
  intros E. exists a, w1. split; [reflexivity | exact E].
Qed.

Ltac run_M :=
  repeat progress (
  cbv [UpdateResults UpdateParameters BeginRendering EndRendering
       mbind M_bind mret M_ret read_this write_this crash gets
       modify record_call deref to_bool check IsInRenderingThread
       ENQUEUE_RENDER_COMMAND FindFreeElement GraphBuilder.Create
       GraphBuilder.RegisterExternalTexture GraphBuilder.CreateUAV
       GraphBuilder.AllocParameters GraphBuilder.AddPass
       FWhiteNoiseCS.set_OutputTexture
       FComputeShaderUtils_Dispatch invoke_pass_lambda
       FRDGBuilder_Execute RHICmdList_CopyTexture GetRenderTargetItem
       GetTexture2D
       set_instance set_Managers set_GlobalShaderTypes set_CurrentThread
       set_RenderCommandQueue set_GRenderTargetPool set_Calls
       instance Managers GlobalShaderTypes CurrentThread GMaxRHIFeatureLevel
       RenderCommandQueue GRenderTargetPool Calls
       PoolSlot GetDesc PoolDebugName ExternalTextures UAVs Passes
       ExecuteLambda cap_PassParameters cap_WhiteNoiseCS cap_ThreadGroupCount
       ShaderResourceTexture andb negb];
  cbn [app execute_passes]).

(** Splits a world into its members, so that reading a member computes. *)
Ltac open_world w :=
  destruct w as [w_instance w_Managers w_ShaderTypes w_Thread w_Level
                 w_Queue w_Pool w_Calls];
  cbn [instance Managers GlobalShaderTypes CurrentThread GMaxRHIFeatureLevel
       RenderCommandQueue GRenderTargetPool Calls] in *.

Lemma dispatched_group_counts_app (cs ds : list EngineCall) :
  dispatched_group_counts (cs ++ ds) =
  (dispatched_group_counts cs ++ dispatched_group_counts ds)%list.
Proof.
  induction cs as [|c cs IH]; [reflexivity|].
  destruct c; cbn [app dispatched_group_counts]; now rewrite IH.
Qed.

(** ** 32-bit arithmetic of the thread-group count *)

Lemma int32_wrap_in_range (z : Z) :
  (- 2 ^ 31 <= z <= INT32_MAX)%Z -> int32_wrap z = z.
Proof.
  unfold int32_wrap, INT32_MAX. intros Hz.
  rewrite Z.mod_small by lia. lia.
Qed.

Lemma int32_wrap_sub_1 (z : Z) :
  int32_wrap (int32_wrap z - 1) = int32_wrap (z - 1).
Proof.
  unfold int32_wrap.
  replace ((z + 2 ^ 31) mod 2 ^ 32 - 2 ^ 31 - 1 + 2 ^ 31)%Z
    with ((z + 2 ^ 31) mod 2 ^ 32 - 1)%Z by lia.
  rewrite Zminus_mod_idemp_l.
  now replace (z - 1 + 2 ^ 31)%Z with (z + 2 ^ 31 - 1)%Z by lia.
Qed.

Lemma ceil_quotient_32 (a : Z) : ceil_quotient a 32 = ((a + 31) / 32)%Z.
Proof.
  unfold ceil_quotient.
  pose proof (Z.div_mod (a + 31) 32 ltac:(lia)) as Hd.
  pose proof (Z.mod_pos_bound (a + 31) 32 ltac:(lia)) as Hb.
  assert (E : (- ((a + 31) / 32) = (- a) / 32)%Z)
    by (apply (Z.div_unique (- a) 32 _ (31 - (a + 31) mod 32)); lia).
  lia.
Qed.

(** [ceil_quotient a 32] is the least [n] with [a <= 32 * n]. *)
Lemma ceil_quotient_32_least (a : Z) :
  (a <= 32 * ceil_quotient a 32)%Z /\
  (forall n : Z, a <= 32 * n -> ceil_quotient a 32 <= n)%Z.
Proof.
  rewrite ceil_quotient_32.
  pose proof (Z.div_mod (a + 31) 32 ltac:(lia)) as Hd.
  pose proof (Z.mod_pos_bound (a + 31) 32 ltac:(lia)) as Hb.
  split; [lia|]. intros n Hn. lia.
Qed.

Lemma DivideAndRoundUp_32 (a : Z) :
  (0 < a <= INT32_MAX - 31)%Z ->
  FMath.DivideAndRoundUp a NUM_THREADS_PER_GROUP_DIMENSION = ceil_quotient a 32.
Proof.
  intros Ha. unfold FMath.DivideAndRoundUp, NUM_THREADS_PER_GROUP_DIMENSION,
    int32_div, int32_sub, int32_add.
  rewrite int32_wrap_sub_1.
  unfold INT32_MAX in Ha.
  rewrite (int32_wrap_in_range (a + 32 - 1)) by (unfold INT32_MAX; lia).
  rewrite Z.quot_div_nonneg by lia.
  replace (a + 32 - 1)%Z with (a + 31)%Z by lia.
  pose proof (Z.div_mod (a + 31) 32 ltac:(lia)) as Hd.
  pose proof (Z.mod_pos_bound (a + 31) 32 ltac:(lia)) as Hb.
  rewrite int32_wrap_in_range by (unfold INT32_MAX; lia).
  now rewrite ceil_quotient_32.
Qed.

Section ManagerProperties.
Context {rhi : RHIDefinitions} {header : ManagerHeader}.

(** ** [UpdateResults], case by case *)

Lemma UpdateResults_bad_this (this : nat) (w : World) :
  Managers w !! this = None -> UpdateResults this w = Crash AccessViolation.
Proof. intros Hm. open_world w. run_M. now rewrite Hm. Qed.

Lemma UpdateResults_early (this : nat) (w : World) (m : FWhiteNoiseCSManager) :
  Managers w !! this = Some m ->
  bCachedParamsAreValid m && to_bool (RenderTarget (cachedParams m)) = false ->
  UpdateResults this w = Done tt w.
Proof.
  intros Hm Hg. unfold UpdateResults, mbind, M_bind, read_this.
  rewrite Hm, Hg. reflexivity.
Qed.

Lemma UpdateResults_off_thread (this : nat) (w : World) (m : FWhiteNoiseCSManager) :
  Managers w !! this = Some m ->
  bCachedParamsAreValid m && to_bool (RenderTarget (cachedParams m)) = true ->
  CurrentThread w = GameThread ->
  UpdateResults this w = Crash (AssertionFailed "IsInRenderingThread()").
Proof.
  intros Hm Hg Hth. open_world w. subst w_Thread.
  unfold UpdateResults, mbind, M_bind, read_this. cbn [Managers].
  rewrite Hm, Hg. reflexivity.
Qed.

(** The values that the dispatch path builds for a render target [RT] and a
    size, in a world [w]. *)
Lemma UpdateResults_dispatch_path (this : nat) (w : World)
    (m : FWhiteNoiseCSManager) (RT : UTextureRenderTarget2D) :
  Managers w !! this = Some m ->
  bCachedParamsAreValid m = true ->
  RenderTarget (cachedParams m) = Some RT ->
  CurrentThread w = ActualRenderingThread ->
  let Size := GetRenderTargetSize (cachedParams m) in
  let Pooled :=
    {| PoolSlot := length (GRenderTargetPool w);
       GetDesc := Create2DDesc Size (GetFormat (TextureRHI (GetRenderTargetResource RT)))
                    FClearValueBinding_None TexCreate_None
                    (Z.lor TexCreate_ShaderResource TexCreate_UAV) false;
       PoolDebugName := "CustomTexture" |} in
  let Texture :=
    {| PooledRenderTarget := Pooled; RDGTextureName := "CustomTexture";
       RenderTargetTextureKind := ShaderResource;
       RDGTextureFlags := ERDGTextureFlags.MultiFrame |} in
  let UAV := {| UAVDesc := {| UAVDescTexture := Texture |} |} in
  let PassParameters := {| FWhiteNoiseCS.OutputTexture := Some UAV |} in
  let WhiteNoiseCS :=
    {| RefShaderType := FWhiteNoiseCS.StaticType;
       RefShaderMap := GetGlobalShaderMap (GMaxRHIFeatureLevel w) |} in
  let Pass :=
    {| PassName := "ComputeWhiteNoise"; PassParameterStruct := PassParameters;
       PassFlags := ERDGPassFlags.Compute;
       ExecuteLambda := {| cap_PassParameters := PassParameters;
                           cap_WhiteNoiseCS := WhiteNoiseCS;
                           cap_ThreadGroupCount := ThreadGroupCount_of Size |} |} in
  let G := {| ExternalTextures := [Texture]; UAVs := [UAV]; Passes := [Pass] |} in
  UpdateResults this w =
  Done tt
    (set_Calls
       (Calls w ++
        [Call_FindFreeElement (GetDesc Pooled) "CustomTexture";
         Call_RegisterExternalTexture Texture;
         Call_CreateUAV UAV;
         Call_AllocParameters;
         Call_AddPass Pass;
         Call_Execute G;
         Call_Dispatch WhiteNoiseCS PassParameters (ThreadGroupCount_of Size);
         Call_CopyTexture (ShaderResourceTexture (GetRenderTargetItem Pooled))
                          (GetRenderTargetTexture (GetRenderTargetResource RT))
                          FRHICopyTextureInfo_default])
       (set_GRenderTargetPool (GRenderTargetPool w ++ [Pooled]) w)).
Proof.
  intros Hm Hv Hrt Hth. cbv zeta. open_world w.
  run_M. rewrite Hm, Hv, Hrt. run_M. rewrite Hth. run_M.
  rewrite <- !app_assoc. reflexivity.
Qed.

(** Whatever [UpdateResults] does, it leaves the managers, [instance], the
    command queue, the thread and the shader types as they were. *)
Lemma UpdateResults_frame (this : nat) (w w' : World) :
  UpdateResults this w = Done tt w' ->
  Managers w' = Managers w /\ instance w' = instance w /\
  RenderCommandQueue w' = RenderCommandQueue w /\
  CurrentThread w' = CurrentThread w /\
  GlobalShaderTypes w' = GlobalShaderTypes w.
Proof.
  intros E.
  destruct (Managers w !! this) as [m|] eqn:Hm;
    [|rewrite (UpdateResults_bad_this _ _ Hm) in E; discriminate].
  destruct (bCachedParamsAreValid m && to_bool (RenderTarget (cachedParams m))) eqn:Hg.
  - apply andb_true_iff in Hg as [Hv Hrt].
    destruct (RenderTarget (cachedParams m)) as [RT|] eqn:HRT; [|discriminate].
    destruct (CurrentThread w) eqn:Hth.
    + rewrite (UpdateResults_off_thread this w m) in E; try assumption; [discriminate|].
      now rewrite Hv, HRT.
    + rewrite (UpdateResults_dispatch_path this w m RT) in E by assumption.
      injection E as <-. cbn. now rewrite Hth.
  - rewrite (UpdateResults_early _ _ _ Hm Hg) in E. injection E as <-. tauto.
Qed.

(** ** [Get], [UpdateParameters] and the singleton discipline *)

Lemma Get_existing (w : World) (a : nat) :
  instance w = Some a -> Get w = Done a w.
Proof. intros Hi. unfold Get, mbind, M_bind, gets. now rewrite Hi. Qed.

Lemma Get_first (w : World) :
  instance w = None ->
  Get w = Done (length (Managers w))
            (set_instance (Some (length (Managers w)))
               (set_Managers (Managers w ++ [FWhiteNoiseCSManager_new]) w)).
Proof. intros Hi. unfold Get, mbind, M_bind, gets. now rewrite Hi. Qed.

Lemma Get_Singleton (w w' : World) (a : nat) :
  Singleton w -> Get w = Done a w' ->
  Singleton w' /\ a = 0 /\ instance w' = Some 0 /\ length (Managers w') = 1 /\
  (instance w = Some 0 -> w' = w).
Proof.
  unfold Singleton. intros S E. destruct (instance w) as [b|] eqn:Hi.
  - rewrite (Get_existing _ _ Hi) in E. injection E as <- <-.
    destruct S as [-> Hl]. rewrite Hi. auto.
  - rewrite (Get_first _ Hi) in E. injection E as <- <-. rewrite S.
    cbn. repeat split; auto. discriminate.
Qed.

Lemma UpdateParameters_writes (this : nat) (params : FWhiteNoiseCSParameters)
    (w : World) (m : FWhiteNoiseCSManager) :
  Managers w !! this = Some m ->
  UpdateParameters this params w =
  Done tt (set_Managers (<[this := {| cachedParams := params;
                                      bCachedParamsAreValid := true |}]>
                           (Managers w)) w).
Proof.
  intros Hm. open_world w. run_M. rewrite Hm.
  assert (Hlt : this < length w_Managers) by (eapply lookup_lt_Some; eauto).
  rewrite list_lookup_insert_eq by exact Hlt.
  cbn [cachedParams bCachedParamsAreValid].
  now rewrite list_insert_insert_eq.
Qed.

Lemma UpdateParameters_bad_this (this : nat) (params : FWhiteNoiseCSParameters)
    (w : World) :
  Managers w !! this = None ->
  UpdateParameters this params w = Crash AccessViolation.
Proof. intros Hm. open_world w. run_M. now rewrite Hm. Qed.

Lemma perform_Singleton (op : Operation) (w w' : World) :
  Singleton w -> perform op w = Done tt w' -> Singleton w'.
Proof.
  intros S E. destruct op; cbn [perform] in E.
  - apply bind_inv in E as (a & w1 & EG & E1).
    destruct (Get_Singleton _ _ _ S EG) as (S1 & _).
    cbv [mret M_ret] in E1. now injection E1 as <-.
  - apply bind_inv in E as (a & w1 & EG & E1).
    destruct (Get_Singleton _ _ _ S EG) as (S1 & _).
    cbv [BeginRendering ENQUEUE_RENDER_COMMAND modify] in E1.
    injection E1 as <-. exact S1.
  - apply bind_inv in E as (a & w1 & EG & E1).
    destruct (Get_Singleton _ _ _ S EG) as (S1 & _).
    cbv [EndRendering mret M_ret] in E1. now injection E1 as <-.
  - apply bind_inv in E as (a & w1 & EG & E1).
    destruct (Get_Singleton _ _ _ S EG) as (S1 & -> & Hi & Hl & _).
    destruct (Managers w1 !! 0) as [m|] eqn:Hm;
      [|rewrite (UpdateParameters_bad_this _ _ _ Hm) in E1; discriminate].
    rewrite (UpdateParameters_writes _ _ _ _ Hm) in E1. injection E1 as <-.
    unfold Singleton. cbn. rewrite Hi. split; [reflexivity|].
    now rewrite length_insert.
  - unfold RenderingThread_Tick in E.
    apply bind_inv in E as (q & w1 & Eq & E). cbv [gets] in Eq.
    injection Eq as <- <-.
    destruct (RenderCommandQueue w) as [|cmd rest].
    { cbv [mret M_ret] in E. now injection E as <-. }
    apply bind_inv in E as (caller & w1 & Ec & E). cbv [gets] in Ec.
    injection Ec as <- <-.
    apply bind_inv in E as ([] & w1 & E1 & E). cbv [modify] in E1.
    injection E1 as <-.
    apply bind_inv in E as ([] & w2 & E2 & E). cbv [modify] in E2.
    injection E2 as <-.
    apply bind_inv in E as ([] & w3 & E3 & E). cbv [modify] in E.
    injection E as <-.
    destruct cmd. cbn [execute_render_command] in E3.
    apply bind_inv in E3 as (a & w4 & EG & EU).
    assert (S0 : Singleton
                   (set_CurrentThread ActualRenderingThread
                      (set_RenderCommandQueue rest w))) by exact S.
    destruct (Get_Singleton _ _ _ S0 EG) as (S4 & _).
    destruct (UpdateResults_frame _ _ _ EU) as (HM & HI & _).
    unfold Singleton in *. cbn. now rewrite HM, HI.
Qed.

Lemma Reachable_Singleton (w : World) : Reachable w -> Singleton w.
Proof.
  induction 1 as [w0 Hnone|w w' op _ IH E].
  - unfold Singleton. cbn. exact Hnone.
  - exact (perform_Singleton op w w' IH E).
Qed.

(** ** The render-thread callback *)

(** C3: with valid cached parameters and a render target, on the rendering
    thread, [UpdateResults] returns after making these engine calls in this
    order: it takes from [GRenderTargetPool] an element whose extent is the
    render-target size and whose format is the render target's; it registers
    that element in a new graph, makes a UAV of it, and adds one pass, the
    compute pass "ComputeWhiteNoise", whose lambda is the dispatch of the
    white-noise shader on that UAV; it executes the graph, which holds that
    pass alone, and the dispatch follows; last it copies the pooled texture
    into the render target's texture. *)
Theorem UpdateResults_performs_in_order (this : nat) (w : World)
    (m : FWhiteNoiseCSManager) (RT : UTextureRenderTarget2D) :
  Managers w !! this = Some m ->
  bCachedParamsAreValid m = true ->
  RenderTarget (cachedParams m) = Some RT ->
  CurrentThread w = ActualRenderingThread ->
  exists (w' : World) (Pooled : IPooledRenderTarget) (Texture : FRDGTexture)
         (UAV : FRDGTextureUAV) (Pass : FRDGPass) (G : FRDGBuilder)
         (Shader : TShaderMapRef) (GroupCount : FIntVector),
    UpdateResults this w = Done tt w' /\
    GRenderTargetPool w' = (GRenderTargetPool w ++ [Pooled])%list /\
    Calls w' =
      (Calls w ++
       [Call_FindFreeElement (GetDesc Pooled) "CustomTexture";
        Call_RegisterExternalTexture Texture;
        Call_CreateUAV UAV;
        Call_AllocParameters;
        Call_AddPass Pass;
        Call_Execute G;
        Call_Dispatch Shader (PassParameterStruct Pass) GroupCount;
        Call_CopyTexture (ShaderResourceTexture (GetRenderTargetItem Pooled))
                         (GetRenderTargetTexture (GetRenderTargetResource RT))
                         FRHICopyTextureInfo_default])%list /\
    Extent (GetDesc Pooled) = GetRenderTargetSize (cachedParams m) /\
    Format (GetDesc Pooled) = GetFormat (TextureRHI (GetRenderTargetResource RT)) /\
    PooledRenderTarget Texture = Pooled /\
    UAVDescTexture (UAVDesc UAV) = Texture /\
    ExternalTextures G = [Texture] /\
    Passes G = [Pass] /\
    PassName Pass = "ComputeWhiteNoise" /\
    PassFlags Pass = ERDGPassFlags.Compute /\
    FWhiteNoiseCS.OutputTexture (PassParameterStruct Pass) = Some UAV /\
    RefShaderType Shader = FWhiteNoiseCS.StaticType /\
    GroupCount = ThreadGroupCount_of (GetRenderTargetSize (cachedParams m)) /\
    invoke_pass_lambda (ExecuteLambda Pass) =
      FComputeShaderUtils_Dispatch Shader (PassParameterStruct Pass) GroupCount.
Proof.
  intros Hm Hv Hrt Hth.
  pose proof (UpdateResults_dispatch_path this w m RT Hm Hv Hrt Hth) as E.
  cbv zeta in E.
  match type of E with
  | _ = Done tt (set_Calls
                   (_ ++ [_; Call_RegisterExternalTexture ?T; Call_CreateUAV ?U; _;
                          Call_AddPass ?P; Call_Execute ?G; Call_Dispatch ?S _ ?C; _])
                   (set_GRenderTargetPool (_ ++ [?Po]) _)) =>
      eexists; exists Po, T, U, P, G, S, C
  end.
  split; [exact E|].
  cbn. repeat split; reflexivity.
Qed.

(** ** The guard of [UpdateResults] *)

Lemma valid_guard (m : FWhiteNoiseCSManager) :
  bCachedParamsAreValid m && to_bool (RenderTarget (cachedParams m)) = false <->
  bCachedParamsAreValid m = false \/ RenderTarget (cachedParams m) = None.
Proof.
  destruct (bCachedParamsAreValid m), (RenderTarget (cachedParams m)); cbn;
    intuition discriminate.
Qed.

(** C2: on the rendering thread, where the render command calls it,
    [UpdateResults] returns at once, leaving the world as it was (nothing
    allocated, no pass added, nothing dispatched, nothing copied), if and
    only if [bCachedParamsAreValid] is false or [cachedParams.RenderTarget]
    is null; when neither is the case the dispatch path is always taken: the
    call returns after exactly one allocation, one pass addition, one
    dispatch and one copy. *)
Theorem UpdateResults_guard (this : nat) (w : World) (m : FWhiteNoiseCSManager) :
  Managers w !! this = Some m ->
  CurrentThread w = ActualRenderingThread ->
  (UpdateResults this w = Done tt w <->
   bCachedParamsAreValid m = false \/ RenderTarget (cachedParams m) = None) /\
  (bCachedParamsAreValid m = true -> RenderTarget (cachedParams m) <> None ->
   exists w', UpdateResults this w = Done tt w' /\
     length (GRenderTargetPool w') = S (length (GRenderTargetPool w)) /\
     length (allocations (Calls w')) = S (length (allocations (Calls w))) /\
     length (pass_additions (Calls w')) = S (length (pass_additions (Calls w))) /\
     length (dispatches (Calls w')) = S (length (dispatches (Calls w))) /\
     length (copies (Calls w')) = S (length (copies (Calls w)))).
Proof.
  intros Hm Hth. split; [split|].
  - intros E. apply valid_guard.
    destruct (bCachedParamsAreValid m && to_bool (RenderTarget (cachedParams m)))
      eqn:Hg; [exfalso|reflexivity].
    pose proof Hg as Hg'. apply andb_true_iff in Hg' as [Hv Hrt].
    destruct (RenderTarget (cachedParams m)) as [RT|] eqn:HRT; [|discriminate].
    rewrite (UpdateResults_dispatch_path this w m RT Hm Hv HRT Hth) in E.
    injection E as E. apply (f_equal GRenderTargetPool) in E. cbn in E.
    apply (f_equal length) in E. rewrite length_app in E. cbn in E. lia.
  - intros Hg. apply valid_guard in Hg. exact (UpdateResults_early this w m Hm Hg).
  - intros Hv Hnn.
    destruct (RenderTarget (cachedParams m)) as [RT|] eqn:HRT; [|congruence].
    eexists. split; [exact (UpdateResults_dispatch_path this w m RT Hm Hv HRT Hth)|].
    cbn. unfold allocations, pass_additions, dispatches, copies.
    rewrite !List.filter_app, !length_app. cbn. lia.
Qed.

(** ** The dispatched thread-group count *)

(** C9, amended: for a render-target size [(W, H)] with [W] and [H] positive
    and at most [INT32_MAX - 31], so that [W + 31] and [H + 31] are [int32]
    values, the one dispatch of [UpdateResults] has the thread-group count
    [(ceil(W/32), ceil(H/32), 1)], each rounded-up quotient being the least
    [n] with [W <= 32 * n]; the divisor is
    [NUM_THREADS_PER_GROUP_DIMENSION = 32]. *)
Theorem dispatched_thread_group_count (this : nat) (w : World)
    (m : FWhiteNoiseCSManager) (RT : UTextureRenderTarget2D) (W H : Z) :
  Managers w !! this = Some m ->
  bCachedParamsAreValid m = true ->
  RenderTarget (cachedParams m) = Some RT ->
  CurrentThread w = ActualRenderingThread ->
  GetRenderTargetSize (cachedParams m) = {| X := W; Y := H |} ->
  (0 < W <= INT32_MAX - 31)%Z ->
  (0 < H <= INT32_MAX - 31)%Z ->
  exists w', UpdateResults this w = Done tt w' /\
    dispatched_group_counts (Calls w') =
      (dispatched_group_counts (Calls w) ++
       [{| VX := ceil_quotient W 32; VY := ceil_quotient H 32; VZ := 1 |}])%list /\
    NUM_THREADS_PER_GROUP_DIMENSION = 32%Z /\
    (W <= 32 * ceil_quotient W 32)%Z /\
    (forall n : Z, W <= 32 * n -> ceil_quotient W 32 <= n)%Z /\
    (H <= 32 * ceil_quotient H 32)%Z /\
    (forall n : Z, H <= 32 * n -> ceil_quotient H 32 <= n)%Z.
Proof.
  intros Hm Hv Hrt Hth Hsize HW HH.
  eexists. split; [exact (UpdateResults_dispatch_path this w m RT Hm Hv Hrt Hth)|].
  split.
  - cbn [Calls set_Calls]. rewrite dispatched_group_counts_app.
    cbn [dispatched_group_counts]. rewrite Hsize. unfold ThreadGroupCount_of.
    cbn [X Y]. now rewrite (DivideAndRoundUp_32 W HW), (DivideAndRoundUp_32 H HH).
  - split; [reflexivity|].
    destruct (ceil_quotient_32_least W), (ceil_quotient_32_least H). auto.
Qed.

(** ** From [BeginRendering] to the dispatch *)

(** C1: every call to [BeginRendering] appends exactly one command to the
    queue of the rendering thread and does nothing else.  When the rendering
    thread takes that command from the head of its queue in a world whose
    manager has valid cached parameters with a render target, the command
    returns after one more dispatch, of the white-noise shader writing to
    the pooled texture, and one more copy, from that pooled texture into the
    texture of the render target. *)
Theorem BeginRendering_enqueues_one_command (this : nat) (w0 w : World)
    (rest : list FRenderCommand) (a : nat) (m : FWhiteNoiseCSManager)
    (RT : UTextureRenderTarget2D) :
  instance w = Some a ->
  Managers w !! a = Some m ->
  bCachedParamsAreValid m = true ->
  RenderTarget (cachedParams m) = Some RT ->
  exists cmd : FRenderCommand,
    BeginRendering this w0 =
      Done tt (set_RenderCommandQueue (RenderCommandQueue w0 ++ [cmd]) w0) /\
    exists (w' : World) (Pooled : IPooledRenderTarget) (Shader : TShaderMapRef)
           (Parameters : FWhiteNoiseCS.FParameters) (GroupCount : FIntVector),
      RenderingThread_Tick (set_RenderCommandQueue (cmd :: rest) w) = Done tt w' /\
      RenderCommandQueue w' = rest /\
      GRenderTargetPool w' = (GRenderTargetPool w ++ [Pooled])%list /\
      dispatches (Calls w') =
        (dispatches (Calls w) ++ [Call_Dispatch Shader Parameters GroupCount])%list /\
      RefShaderType Shader = FWhiteNoiseCS.StaticType /\
      (exists UAV, FWhiteNoiseCS.OutputTexture Parameters = Some UAV /\
                   PooledRenderTarget (UAVDescTexture (UAVDesc UAV)) = Pooled) /\
      copies (Calls w') =
        (copies (Calls w) ++
         [Call_CopyTexture (ShaderResourceTexture (GetRenderTargetItem Pooled))
                           (GetRenderTargetTexture (GetRenderTargetResource RT))
                           FRHICopyTextureInfo_default])%list.
Proof.
  intros Hi Hm Hv Hrt. exists CaptureCommand. split; [reflexivity|].
  pose (w1 := set_CurrentThread ActualRenderingThread
                (set_RenderCommandQueue rest
                   (set_RenderCommandQueue (CaptureCommand :: rest) w))).
  pose proof (UpdateResults_dispatch_path a w1 m RT Hm Hv Hrt eq_refl) as EU.
  cbv zeta in EU.
  match type of EU with
  | _ = Done tt (set_Calls
                   (_ ++ [_; _; _; _; _; _; Call_Dispatch ?S ?P ?C; _])
                   (set_GRenderTargetPool (_ ++ [?Po]) _)) =>
      eexists; exists Po, S, P, C
  end.
  split.
  - unfold RenderingThread_Tick. cbv [mbind M_bind gets modify].
    cbn [RenderCommandQueue set_RenderCommandQueue execute_render_command].
    fold w1. cbv [mbind M_bind].
    rewrite (Get_existing w1 a Hi). rewrite EU. reflexivity.
  - cbn. unfold dispatches, copies.
    rewrite !List.filter_app. cbn. repeat split; try reflexivity.
    eexists. split; reflexivity.
Qed.

(** ** The cached state *)

(** C8: for every argument [params], [UpdateParameters] returns with
    [params] copied into [cachedParams] and [bCachedParamsAreValid] set, the
    rest of the world as it was, also when [params.RenderTarget] is null:
    then the manager is valid with a null render target, and the next
    [UpdateResults] is the one that finds it and returns at once. *)
Theorem UpdateParameters_caches_unconditionally (this : nat)
    (params : FWhiteNoiseCSParameters) (w : World) (m : FWhiteNoiseCSManager) :
  Managers w !! this = Some m ->
  exists w', UpdateParameters this params w = Done tt w' /\
    w' = set_Managers (<[this := {| cachedParams := params;
                                    bCachedParamsAreValid := true |}]>
                         (Managers w)) w /\
    Managers w' !! this =
      Some {| cachedParams := params; bCachedParamsAreValid := true |} /\
    (RenderTarget params = None ->
     exists m', Managers w' !! this = Some m' /\
       bCachedParamsAreValid m' = true /\
       RenderTarget (cachedParams m') = None /\
       UpdateResults this w' = Done tt w').
Proof.
  intros Hm.
  assert (Hlt : this < length (Managers w)) by (eapply lookup_lt_Some; eauto).
  eexists. split; [exact (UpdateParameters_writes this params w m Hm)|].
  split; [reflexivity|].
  assert (Hl : Managers (set_Managers
                           (<[this := {| cachedParams := params;
                                         bCachedParamsAreValid := true |}]>
                              (Managers w)) w) !! this =
               Some {| cachedParams := params; bCachedParamsAreValid := true |}).
  { cbn. now apply list_lookup_insert_eq. }
  split; [exact Hl|].
  intros Hnull. eexists. split; [exact Hl|]. cbn. repeat split; [assumption|].
  apply (UpdateResults_early _ _ _ Hl). cbn. now rewrite Hnull.
Qed.

(** C10: [EndRendering] is a no-op, and [UpdateResults], whenever it returns
    (it does on the rendering thread), leaves every manager, so
    [cachedParams] and [bCachedParamsAreValid], as it found them; so does
    [BeginRendering].  [UpdateParameters] is the operation that writes them. *)
Theorem cached_state_frame (this : nat) (w : World) (m : FWhiteNoiseCSManager) :
  Managers w !! this = Some m ->
  EndRendering this w = Done tt w /\
  (exists w', BeginRendering this w = Done tt w' /\ Managers w' = Managers w) /\
  (forall w', UpdateResults this w = Done tt w' -> Managers w' = Managers w) /\
  (CurrentThread w = ActualRenderingThread ->
   exists w', UpdateResults this w = Done tt w' /\ Managers w' = Managers w) /\
  (forall params, exists w', UpdateParameters this params w = Done tt w' /\
     Managers w' !! this =
       Some {| cachedParams := params; bCachedParamsAreValid := true |}).
Proof.
  intros Hm. split; [reflexivity|]. split; [eexists; split; reflexivity|].
  split; [intros w' E; exact (proj1 (UpdateResults_frame this w w' E))|].
  split.
  - intros Hth.
    destruct (bCachedParamsAreValid m && to_bool (RenderTarget (cachedParams m)))
      eqn:Hg.
    + pose proof Hg as Hg'. apply andb_true_iff in Hg' as [Hv Hrt].
      destruct (RenderTarget (cachedParams m)) as [RT|] eqn:HRT; [|discriminate].
      eexists. split; [exact (UpdateResults_dispatch_path this w m RT Hm Hv HRT Hth)|].
      reflexivity.
    + exists w. split; [exact (UpdateResults_early this w m Hm Hg)|reflexivity].
  - intros params. eexists.
    split; [exact (UpdateParameters_writes this params w m Hm)|].
    cbn. apply list_lookup_insert_eq. eapply lookup_lt_Some; eauto.
Qed.

(** ** The singleton *)

(** C6: static initialisation leaves [instance] null; in every world reached
    from a load of the module there is at most one manager, and [Get]
    returns, every time with the address of that one manager, which a first
    call makes and which [instance] then holds; a further call changes
    nothing. *)
Theorem manager_is_a_singleton (w : World) :
  Reachable w ->
  (forall w0, instance (StaticInitialization w0) = None) /\
  length (Managers w) <= 1 /\
  exists w', Get w = Done 0 w' /\
    Reachable w' /\
    instance w' = Some 0 /\
    length (Managers w') = 1 /\
    Get w' = Done 0 w'.
Proof.
  intros R. split; [reflexivity|].
  pose proof (Reachable_Singleton w R) as S.
  split.
  - unfold Singleton in S. destruct (instance w).
    + destruct S as [_ ->]. lia.
    + rewrite S. cbn. lia.
  - destruct (Get w) as [a w'|e] eqn:EG.
    + destruct (Get_Singleton w w' a S EG) as (S' & -> & Hi & Hl & _).
      exists w'. split; [reflexivity|]. split.
      * apply (Reachable_step w w' Op_Get R). cbn [perform].
        now rewrite (bind_Done _ _ _ _ _ EG).
      * repeat split; try assumption. now apply Get_existing.
    + exfalso. unfold Get, mbind, M_bind, gets in EG.
      destruct (instance w); discriminate.
Qed.

End ManagerProperties.

(** ** The shader class *)

Section ShaderProperties.
Context {types : HostTypes} {host : HostEngine}.

(** C4: [ShouldCompilePermutation] returns, for every platform, what
    [IsFeatureLevelSupported] says of that platform and SM5, and nothing
    else of the permutation parameters matters. *)
Theorem ShouldCompilePermutation_is_SM5_support
    (Parameters : FGlobalShaderPermutationParameters) (OtherId : Z) :
  FWhiteNoiseCS.ShouldCompilePermutation Parameters =
    IsFeatureLevelSupported (Platform Parameters) ERHIFeatureLevel.SM5 /\
  FWhiteNoiseCS.ShouldCompilePermutation
    {| Platform := Platform Parameters; PermutationId := OtherId |} =
    FWhiteNoiseCS.ShouldCompilePermutation Parameters.
Proof. split; reflexivity. Qed.

(** C5: for every environment, [ModifyCompilationEnvironment] yields what
    the base-class hook yields with three definitions set on top of it, and
    only these: THREADGROUPSIZE_X and THREADGROUPSIZE_Y are "32", the decimal
    of [NUM_THREADS_PER_GROUP_DIMENSION], and THREADGROUPSIZE_Z is "1",
    whatever the base-class hook defined; the same constant divides the
    render-target size in the thread-group count of the dispatch. *)
Theorem ModifyCompilationEnvironment_sets_three_defines
    (Parameters : FGlobalShaderPermutationParameters)
    (Env : FShaderCompilerEnvironment) :
  Definitions (FWhiteNoiseCS.ModifyCompilationEnvironment Parameters Env) =
    <["THREADGROUPSIZE_Z" := "1"]>
      (<["THREADGROUPSIZE_Y" := "32"]>
         (<["THREADGROUPSIZE_X" := "32"]>
            (Definitions (FGlobalShader_ModifyCompilationEnvironment Parameters Env)))) /\
  Definitions (FWhiteNoiseCS.ModifyCompilationEnvironment Parameters Env)
    !! "THREADGROUPSIZE_X" = Some "32" /\
  Definitions (FWhiteNoiseCS.ModifyCompilationEnvironment Parameters Env)
    !! "THREADGROUPSIZE_Y" = Some "32" /\
  Definitions (FWhiteNoiseCS.ModifyCompilationEnvironment Parameters Env)
    !! "THREADGROUPSIZE_Z" = Some "1" /\
  dom (Definitions (FWhiteNoiseCS.ModifyCompilationEnvironment Parameters Env)) =
    ({["THREADGROUPSIZE_Z"]} ∪ ({["THREADGROUPSIZE_Y"]} ∪ ({["THREADGROUPSIZE_X"]} ∪
     dom (Definitions (FGlobalShader_ModifyCompilationEnvironment Parameters Env)))))
    /\
  Settings (FWhiteNoiseCS.ModifyCompilationEnvironment Parameters Env) =
    Settings (FGlobalShader_ModifyCompilationEnvironment Parameters Env) /\
  pretty NUM_THREADS_PER_GROUP_DIMENSION = "32" /\
  (forall Size : FIntPoint,
     ThreadGroupCount_of Size =
     {| VX := FMath.DivideAndRoundUp (X Size) NUM_THREADS_PER_GROUP_DIMENSION;
        VY := FMath.DivideAndRoundUp (Y Size) NUM_THREADS_PER_GROUP_DIMENSION;
        VZ := 1 |}).
Proof.
  unfold FWhiteNoiseCS.ModifyCompilationEnvironment, SetDefine.
  cbn [Definitions Settings].
  change (pretty NUM_THREADS_PER_GROUP_DIMENSION) with "32".
  change (pretty 1%Z) with "1".
  split; [reflexivity|].
  split; [rewrite lookup_insert_ne by done; rewrite lookup_insert_ne by done;
          apply lookup_insert_eq|].
  split; [rewrite lookup_insert_ne by done; apply lookup_insert_eq|].
  split; [apply lookup_insert_eq|].
  split; [now rewrite !dom_insert_L|].
  repeat split.
Qed.

End ShaderProperties.

(** C7: the translation unit implements one global shader type,
    [FWhiteNoiseCS], with source file "/CustomShaders/WhiteNoiseCS.usf",
    entry point "MainComputeShader" and frequency [SF_Compute]; static
    initialisation adds this type, and no other, to the engine's list. *)
Theorem module_implements_one_shader (w : World) :
  ImplementedShaderTypes = [FWhiteNoiseCS.StaticType] /\
  length ImplementedShaderTypes = 1 /\
  ShaderTypeName FWhiteNoiseCS.StaticType = "FWhiteNoiseCS" /\
  SourceFilename FWhiteNoiseCS.StaticType = "/CustomShaders/WhiteNoiseCS.usf" /\
  FunctionName FWhiteNoiseCS.StaticType = "MainComputeShader" /\
  Frequency FWhiteNoiseCS.StaticType = SF_Compute /\
  GlobalShaderTypes (StaticInitialization w) =
    (GlobalShaderTypes w ++
     [IMPLEMENT_GLOBAL_SHADER "FWhiteNoiseCS" "/CustomShaders/WhiteNoiseCS.usf"
                              "MainComputeShader" SF_Compute])%list.
Proof. repeat split. Qed.

(** ** The definitions at work on the sample values *)

Example sample_hooks :
  @FWhiteNoiseCS.ShouldCompilePermutation sample_HostTypes sample_HostEngine
    {| Platform := 2 : @EShaderPlatform sample_HostTypes; PermutationId := 0 |} = true /\
  @FWhiteNoiseCS.ShouldCompilePermutation sample_HostTypes sample_HostEngine
    {| Platform := 5 : @EShaderPlatform sample_HostTypes; PermutationId := 0 |} = false /\
  Definitions
    (@FWhiteNoiseCS.ModifyCompilationEnvironment sample_HostTypes sample_HostEngine
       {| Platform := 2 : @EShaderPlatform sample_HostTypes; PermutationId := 0 |}
       {| Definitions := ∅; Settings := tt : @FShaderCompilerSettings sample_HostTypes |})
    !! "THREADGROUPSIZE_X" = Some "32".
Proof. repeat split. Qed.

Example sample_group_counts :
  ThreadGroupCount_of {| X := 100; Y := 33 |} = {| VX := 4; VY := 2; VZ := 1 |} /\
  ThreadGroupCount_of {| X := 64; Y := 1 |} = {| VX := 2; VY := 1; VZ := 1 |} /\
  ThreadGroupCount_of {| X := INT32_MAX - 31; Y := 32 |} =
    {| VX := 67108863; VY := 1; VZ := 1 |}.
Proof. repeat split. Qed.

(** The claims' theorems at the sample world. *)

Lemma UpdateResults_performs_in_order_witness :
  Managers (sample_world ActualRenderingThread 100 33) !! 0 =
    Some {| cachedParams := sample_params 100 33; bCachedParamsAreValid := true |} /\
  exists w', @UpdateResults sample_RHIDefinitions 0
               (sample_world ActualRenderingThread 100 33) = Done tt w' /\
             length (Calls w') = 8.
Proof.
  split; [reflexivity|].
  destruct (@UpdateResults_performs_in_order sample_RHIDefinitions 0
              (sample_world ActualRenderingThread 100 33) _ sample_RenderTarget
              eq_refl eq_refl eq_refl eq_refl)
    as (w' & Pooled & Texture & UAV & Pass & G & Shader & GroupCount &
        E & _ & HCalls & _).
  exists w'. split; [exact E|]. rewrite HCalls. reflexivity.
Defined.

Lemma UpdateResults_guard_witness :
  Managers (sample_world ActualRenderingThread 100 33) !! 0 =
    Some {| cachedParams := sample_params 100 33; bCachedParamsAreValid := true |} /\
  CurrentThread (sample_world ActualRenderingThread 100 33) = ActualRenderingThread /\
  exists w', @UpdateResults sample_RHIDefinitions 0
               (sample_world ActualRenderingThread 100 33) = Done tt w' /\
             length (GRenderTargetPool w') = 1 /\
             length (dispatches (Calls w')) = 1.
Proof.
  split; [reflexivity|]. split; [reflexivity|].
  destruct (proj2 (@UpdateResults_guard sample_RHIDefinitions 0
                     (sample_world ActualRenderingThread 100 33) _ eq_refl eq_refl)
              eq_refl ltac:(discriminate))
    as (w' & E & Hp & _ & _ & Hd & _).
  exists w'. split; [exact E|]. split; [exact Hp|exact Hd].
Defined.

Lemma dispatched_thread_group_count_witness :
  (0 < 100 <= INT32_MAX - 31)%Z /\ (0 < 33 <= INT32_MAX - 31)%Z /\
  exists w', @UpdateResults sample_RHIDefinitions 0
               (sample_world ActualRenderingThread 100 33) = Done tt w' /\
             dispatched_group_counts (Calls w') = [{| VX := 4; VY := 2; VZ := 1 |}].
Proof.
  assert (HW : (0 < 100 <= INT32_MAX - 31)%Z) by (unfold INT32_MAX; lia).
  assert (HH : (0 < 33 <= INT32_MAX - 31)%Z) by (unfold INT32_MAX; lia).
  split; [exact HW|]. split; [exact HH|].
  destruct (@dispatched_thread_group_count sample_RHIDefinitions 0
              (sample_world ActualRenderingThread 100 33) _ sample_RenderTarget
              100 33 eq_refl eq_refl eq_refl eq_refl eq_refl HW HH)
    as (w' & E & HC & _).
  exists w'. split; [exact E|]. rewrite HC. reflexivity.
Defined.

(** C9 as the claim states it fails here: the width [INT32_MAX] is a
    positive [int32], and the dispatched count is negative, not the
    rounded-up quotient 67108864. *)
Lemma dispatched_thread_group_count_counterexample :
  (0 < INT32_MAX)%Z /\
  ceil_quotient INT32_MAX 32 = 67108864%Z /\
  FMath.DivideAndRoundUp INT32_MAX NUM_THREADS_PER_GROUP_DIMENSION = (-67108863)%Z /\
  exists w', @UpdateResults sample_RHIDefinitions 0
               (sample_world ActualRenderingThread INT32_MAX 1) = Done tt w' /\
             dispatched_group_counts (Calls w') =
               [{| VX := -67108863; VY := 1; VZ := 1 |}] /\
             dispatched_group_counts (Calls w') <>
               [{| VX := ceil_quotient INT32_MAX 32;
                   VY := ceil_quotient 1 32; VZ := 1 |}].
Proof.
  split; [reflexivity|]. split; [reflexivity|]. split; [reflexivity|].
  eexists. split; [vm_compute; reflexivity|].
  split; [reflexivity|]. cbn. discriminate.
Qed.

Lemma BeginRendering_enqueues_one_command_witness :
  instance (sample_world GameThread 100 33) = Some 0 /\
  exists w', (@BeginRendering 0;; @RenderingThread_Tick sample_RHIDefinitions
                                    sample_ManagerHeader)
               (sample_world GameThread 100 33) = Done tt w' /\
             length (dispatches (Calls w')) = 1 /\
             length (copies (Calls w')) = 1.
Proof.
  split; [reflexivity|].
  destruct (@BeginRendering_enqueues_one_command sample_RHIDefinitions
              sample_ManagerHeader 0
              (sample_world GameThread 100 33) (sample_world GameThread 100 33)
              [] 0 _ sample_RenderTarget eq_refl eq_refl eq_refl eq_refl)
    as (cmd & EB & w' & Pooled & Shader & Parameters & GroupCount &
        ET & _ & _ & HD & _ & _ & HC).
  exists w'. split.
  - rewrite (bind_Done _ _ _ _ _ EB). destruct cmd. exact ET.
  - rewrite HD, HC. split; reflexivity.
Defined.

Lemma UpdateParameters_caches_unconditionally_witness :
  Managers (sample_world GameThread 100 33) !! 0 =
    Some {| cachedParams := sample_params 100 33; bCachedParamsAreValid := true |} /\
  exists w', UpdateParameters 0 {| RenderTarget := None;
                                   GetRenderTargetSize := {| X := 0; Y := 0 |} |}
               (sample_world GameThread 100 33) = Done tt w' /\
             @UpdateResults sample_RHIDefinitions 0 w' = Done tt w'.
Proof.
  split; [reflexivity|].
  destruct (@UpdateParameters_caches_unconditionally sample_RHIDefinitions 0
              {| RenderTarget := None; GetRenderTargetSize := {| X := 0; Y := 0 |} |}
              (sample_world GameThread 100 33) _ eq_refl)
    as (w' & E & _ & _ & Hnull).
  exists w'. split; [exact E|].
  destruct (Hnull eq_refl) as (m' & _ & _ & _ & EU). exact EU.
Defined.

Lemma cached_state_frame_witness :
  Managers (sample_world ActualRenderingThread 100 33) !! 0 =
    Some {| cachedParams := sample_params 100 33; bCachedParamsAreValid := true |} /\
  exists w', @UpdateResults sample_RHIDefinitions 0
               (sample_world ActualRenderingThread 100 33) = Done tt w' /\
             Managers w' = Managers (sample_world ActualRenderingThread 100 33).
Proof.
  split; [reflexivity|].
  exact (proj1 (proj2 (proj2 (proj2
           (@cached_state_frame sample_RHIDefinitions 0
              (sample_world ActualRenderingThread 100 33) _ eq_refl)))) eq_refl).
Defined.

Lemma sample_engine_Reachable :
  @Reachable sample_RHIDefinitions sample_ManagerHeader
    (StaticInitialization sample_engine).
Proof. apply Reachable_loaded. reflexivity. Defined.

Lemma manager_is_a_singleton_witness :
  @Reachable sample_RHIDefinitions sample_ManagerHeader
    (StaticInitialization sample_engine) /\
  length (Managers (StaticInitialization sample_engine)) <= 1 /\
  exists w', @Get sample_ManagerHeader (StaticInitialization sample_engine) =
               Done 0 w' /\ length (Managers w') = 1.
Proof.
  split; [exact sample_engine_Reachable|].
  destruct (@manager_is_a_singleton sample_RHIDefinitions sample_ManagerHeader
              (StaticInitialization sample_engine) sample_engine_Reachable)
    as (_ & Hle & w' & EG & _ & _ & Hl & _).
  split; [exact Hle|]. exists w'. split; [exact EG|exact Hl].
Defined.

(** * Further properties *)

(** ** The thread-group count over all of [int32] *)

Lemma DivideAndRoundUp_32_low (W : Z) :
  (- 2 ^ 31 <= W <= INT32_MAX - 31)%Z ->
  FMath.DivideAndRoundUp W NUM_THREADS_PER_GROUP_DIMENSION = Z.quot (W + 31) 32.
Proof.
  intros HW. unfold FMath.DivideAndRoundUp, NUM_THREADS_PER_GROUP_DIMENSION,
    int32_div, int32_sub, int32_add.
  rewrite int32_wrap_sub_1. unfold INT32_MAX in HW.
  rewrite (int32_wrap_in_range (W + 32 - 1)) by (unfold INT32_MAX; lia).
  replace (W + 32 - 1)%Z with (W + 31)%Z by lia.
  apply int32_wrap_in_range. unfold INT32_MAX.
  Z.quot_rem_to_equations. lia.
Qed.

Lemma DivideAndRoundUp_32_high (W : Z) :
  (INT32_MAX - 31 < W <= INT32_MAX)%Z ->
  FMath.DivideAndRoundUp W NUM_THREADS_PER_GROUP_DIMENSION =
    Z.quot (W + 31 - 2 ^ 32) 32.
Proof.
  intros HW. unfold FMath.DivideAndRoundUp, NUM_THREADS_PER_GROUP_DIMENSION,
    int32_div, int32_sub, int32_add.
  rewrite int32_wrap_sub_1. unfold INT32_MAX in HW.
  assert (E : int32_wrap (W + 32 - 1) = (W + 31 - 2 ^ 32)%Z).
  { unfold int32_wrap.
    replace (W + 32 - 1 + 2 ^ 31)%Z with (W + 31 - 2 ^ 31 + 1 * 2 ^ 32)%Z by lia.
    rewrite Z.mod_add by lia. rewrite Z.mod_small by lia. lia. }
  rewrite E. apply int32_wrap_in_range. unfold INT32_MAX.
  Z.quot_rem_to_equations. lia.
Qed.

(** X8: over all [int32] sizes [W], the thread-group count along an axis is
    positive exactly when [0 < W <= INT32_MAX - 31]: a size of zero or below
    gives no group or a negative count, and a size within 30 of [INT32_MAX]
    wraps to a negative count. *)
Theorem thread_group_count_positive_iff (W H : Z) :
  (- 2 ^ 31 <= W <= INT32_MAX)%Z ->
  ((0 < VX (ThreadGroupCount_of {| X := W; Y := H |}))%Z <->
   (0 < W <= INT32_MAX - 31)%Z) /\
  (W <= 0 -> VX (ThreadGroupCount_of {| X := W; Y := H |}) <= 0)%Z /\
  (INT32_MAX - 31 < W -> VX (ThreadGroupCount_of {| X := W; Y := H |}) < 0)%Z /\
  VZ (ThreadGroupCount_of {| X := W; Y := H |}) = 1%Z.
Proof.
  intros HW. cbn [ThreadGroupCount_of VX VZ X].
  assert (Low : (W <= INT32_MAX - 31 ->
                 FMath.DivideAndRoundUp W NUM_THREADS_PER_GROUP_DIMENSION =
                 Z.quot (W + 31) 32)%Z)
    by (intros; apply DivideAndRoundUp_32_low; lia).
  assert (High : (INT32_MAX - 31 < W ->
                  FMath.DivideAndRoundUp W NUM_THREADS_PER_GROUP_DIMENSION < 0)%Z).
  { intros Hh. rewrite DivideAndRoundUp_32_high by lia. unfold INT32_MAX in *.
    Z.quot_rem_to_equations. lia. }
  assert (NonPos : (W <= 0 ->
                    FMath.DivideAndRoundUp W NUM_THREADS_PER_GROUP_DIMENSION <= 0)%Z).
  { intros Hn. rewrite Low by (unfold INT32_MAX; lia).
    Z.quot_rem_to_equations. lia. }
  split; [|split; [exact NonPos|split; [exact High|reflexivity]]].
  split.
  - intros Hpos. destruct (Z_le_gt_dec W 0); [specialize (NonPos ltac:(lia)); lia|].
    destruct (Z_le_gt_dec W (INT32_MAX - 31)); [lia|].
    specialize (High ltac:(lia)). lia.
  - intros [H0 H1]. rewrite Low by lia. unfold INT32_MAX in *.
    Z.quot_rem_to_equations. lia.
Qed.

(** ** Writing the cached parameters twice *)

Section MoreManagerProperties.
Context {rhi : RHIDefinitions} {header : ManagerHeader}.

(** X1: of two [UpdateParameters] calls in a row on one manager the later
    wins: the pair behaves as the second call alone, also when there is no
    manager at [this]. *)
Theorem UpdateParameters_last_write_wins (this : nat)
    (first second : FWhiteNoiseCSParameters) (w : World) :
  (UpdateParameters this first;; UpdateParameters this second) w =
  UpdateParameters this second w.
Proof.
  destruct (Managers w !! this) as [m|] eqn:Hm.
  - rewrite (bind_Done _ _ _ _ _ (UpdateParameters_writes this first w m Hm)).
    assert (Hlt : this < length (Managers w)) by (eapply lookup_lt_Some; eauto).
    erewrite UpdateParameters_writes
      by (cbn [Managers set_Managers]; apply list_lookup_insert_eq; exact Hlt).
    rewrite (UpdateParameters_writes this second w m Hm).
    f_equal. open_world w. unfold set_Managers.
    cbn [instance Managers GlobalShaderTypes CurrentThread GMaxRHIFeatureLevel
         RenderCommandQueue GRenderTargetPool Calls].
    now rewrite list_insert_insert_eq.
  - rewrite (bind_Crash _ _ _ _ (UpdateParameters_bad_this this first w Hm)).
    now rewrite (UpdateParameters_bad_this this second w Hm).
Qed.

(** ** One turn of the rendering thread *)

Lemma copy_destinations_app (cs ds : list EngineCall) :
  copy_destinations (cs ++ ds) = (copy_destinations cs ++ copy_destinations ds)%list.
Proof.
  induction cs as [|c cs IH]; [reflexivity|].
  destruct c; cbn [app copy_destinations]; now rewrite IH.
Qed.

Lemma Tick_empty (w : World) :
  RenderCommandQueue w = [] -> RenderingThread_Tick w = Done tt w.
Proof.
  intros Hq. unfold RenderingThread_Tick. cbv [mbind M_bind gets].
  now rewrite Hq.
Qed.

Lemma Tick_cons (w : World) (cmd : FRenderCommand) (rest : list FRenderCommand) :
  RenderCommandQueue w = cmd :: rest ->
  RenderingThread_Tick w =
  match execute_render_command cmd
          (set_CurrentThread ActualRenderingThread (set_RenderCommandQueue rest w))
  with
  | Done _ w2 => Done tt (set_CurrentThread (CurrentThread w) w2)
  | Crash e => Crash e
  end.
Proof.
  intros Hq. unfold RenderingThread_Tick. cbv [mbind M_bind gets modify].
  rewrite Hq. cbn [CurrentThread set_RenderCommandQueue].
  destruct (execute_render_command cmd _); reflexivity.
Qed.

(** The turn that finds a command and a valid manager. *)
Lemma Tick_dispatch (w : World) (rest : list FRenderCommand) (a : nat)
    (m : FWhiteNoiseCSManager) (RT : UTextureRenderTarget2D) :
  RenderCommandQueue w = CaptureCommand :: rest ->
  instance w = Some a ->
  Managers w !! a = Some m ->
  bCachedParamsAreValid m = true ->
  RenderTarget (cachedParams m) = Some RT ->
  exists (Pooled : IPooledRenderTarget) (L : list EngineCall),
    RenderingThread_Tick w =
      Done tt (set_CurrentThread (CurrentThread w)
                 (set_Calls (Calls w ++ L)
                    (set_GRenderTargetPool (GRenderTargetPool w ++ [Pooled])
                       (set_CurrentThread ActualRenderingThread
                          (set_RenderCommandQueue rest w))))) /\
    length (allocations L) = 1 /\ length (pass_additions L) = 1 /\
    length (dispatches L) = 1 /\ length (copies L) = 1 /\
    dispatched_group_counts L =
      [ThreadGroupCount_of (GetRenderTargetSize (cachedParams m))] /\
    copy_destinations L = [GetRenderTargetTexture (GetRenderTargetResource RT)].
Proof.
  intros Hq Hi Hm Hv Hrt. rewrite (Tick_cons w _ _ Hq).
  cbn [execute_render_command].
  pose (w1 := set_CurrentThread ActualRenderingThread (set_RenderCommandQueue rest w)).
  fold w1. rewrite (bind_Done _ _ _ _ _ (Get_existing w1 a Hi)).
  rewrite (UpdateResults_dispatch_path a w1 m RT Hm Hv Hrt eq_refl).
  eexists _, _. split; [reflexivity|]. cbn. repeat split; reflexivity.
Qed.

(** The turn that finds a command and a manager that the guard rejects. *)
Lemma Tick_early (w : World) (rest : list FRenderCommand) (a : nat)
    (m : FWhiteNoiseCSManager) :
  RenderCommandQueue w = CaptureCommand :: rest ->
  instance w = Some a ->
  Managers w !! a = Some m ->
  bCachedParamsAreValid m && to_bool (RenderTarget (cachedParams m)) = false ->
  RenderingThread_Tick w =
    Done tt (set_CurrentThread (CurrentThread w)
               (set_CurrentThread ActualRenderingThread
                  (set_RenderCommandQueue rest w))).
Proof.
  intros Hq Hi Hm Hg. rewrite (Tick_cons w _ _ Hq).
  cbn [execute_render_command].
  pose (w1 := set_CurrentThread ActualRenderingThread (set_RenderCommandQueue rest w)).
  fold w1. rewrite (bind_Done _ _ _ _ _ (Get_existing w1 a Hi)).
  now rewrite (UpdateResults_early a w1 m Hm Hg).
Qed.

(** ** Parameters are read when the command runs *)

(** X2: the queued command reads the cached parameters when the rendering
    thread runs it, not when [BeginRendering] is called: parameters given by
    an [UpdateParameters] that comes after [BeginRendering] and before the
    rendering thread's turn are the ones dispatched with and copied to,
    whatever was cached when the command was queued. *)
Theorem parameters_are_read_when_the_command_runs (this a : nat) (w : World)
    (m : FWhiteNoiseCSManager) (params : FWhiteNoiseCSParameters)
    (RT : UTextureRenderTarget2D) :
  instance w = Some a ->
  Managers w !! a = Some m ->
  RenderCommandQueue w = [] ->
  RenderTarget params = Some RT ->
  exists w',
    (BeginRendering this;; UpdateParameters a params;; RenderingThread_Tick) w =
      Done tt w' /\
    RenderCommandQueue w' = [] /\
    dispatched_group_counts (Calls w') =
      (dispatched_group_counts (Calls w) ++
       [ThreadGroupCount_of (GetRenderTargetSize params)])%list /\
    copy_destinations (Calls w') =
      (copy_destinations (Calls w) ++
       [GetRenderTargetTexture (GetRenderTargetResource RT)])%list.
Proof.
  intros Hi Hm Hq Hrt.
  assert (Hlt : a < length (Managers w)) by (eapply lookup_lt_Some; eauto).
  pose (w1 := set_RenderCommandQueue (RenderCommandQueue w ++ [CaptureCommand]) w).
  assert (E1 : BeginRendering this w = Done tt w1) by reflexivity.
  rewrite (bind_Done _ _ _ _ _ E1).
  rewrite (bind_Done _ _ _ _ _ (UpdateParameters_writes a params w1 m Hm)).
  match goal with |- context [RenderingThread_Tick ?w2] =>
    destruct (Tick_dispatch w2 [] a
                {| cachedParams := params; bCachedParamsAreValid := true |} RT)
      as (Pooled & L & ET & _ & _ & _ & _ & HG & HC)
  end.
  - cbn. now rewrite Hq.
  - exact Hi.
  - cbn. now apply list_lookup_insert_eq.
  - reflexivity.
  - exact Hrt.
  - eexists. split; [exact ET|]. cbn.
    rewrite dispatched_group_counts_app, copy_destinations_app, HG, HC.
    repeat split.
Qed.

(** ** Draining the queue *)

(** X3: with valid cached parameters and a render target, [n] turns of the
    rendering thread on a queue of [n] commands empty the queue and make [n]
    dispatches, all with the thread-group count of the cached size, and [n]
    copies, all into the texture of the cached render target; the managers
    are as before. *)
Theorem draining_dispatches_once_per_command (n : nat) (w : World) (a : nat)
    (m : FWhiteNoiseCSManager) (RT : UTextureRenderTarget2D) :
  instance w = Some a ->
  Managers w !! a = Some m ->
  bCachedParamsAreValid m = true ->
  RenderTarget (cachedParams m) = Some RT ->
  length (RenderCommandQueue w) = n ->
  exists w', repeat_M n RenderingThread_Tick w = Done tt w' /\
    RenderCommandQueue w' = [] /\
    Managers w' = Managers w /\
    length (GRenderTargetPool w') = length (GRenderTargetPool w) + n /\
    dispatched_group_counts (Calls w') =
      (dispatched_group_counts (Calls w) ++
       replicate n (ThreadGroupCount_of (GetRenderTargetSize (cachedParams m))))%list /\
    copy_destinations (Calls w') =
      (copy_destinations (Calls w) ++
       replicate n (GetRenderTargetTexture (GetRenderTargetResource RT)))%list.
Proof.
  intros Hi Hm Hv Hrt. revert w Hi Hm.
  induction n as [|n IH]; intros w Hi Hm Hn.
  - exists w. destruct (RenderCommandQueue w) eqn:Hq; [|discriminate].
    cbn. rewrite !app_nil_r. repeat split; try reflexivity. lia.
  - destruct (RenderCommandQueue w) as [|[] rest] eqn:Hq; [discriminate|].
    destruct (Tick_dispatch w rest a m RT Hq Hi Hm Hv Hrt)
      as (Pooled & L & ET & _ & _ & _ & _ & HG & HC).
    match type of ET with _ = Done tt ?w1 =>
      destruct (IH w1) as (w' & ER & Hq' & HM & HP & HD & HCD);
        [exact Hi|exact Hm|cbn; cbn in Hn; lia|]
    end.
    exists w'. cbn [repeat_M]. rewrite (bind_Done _ _ _ _ _ ET).
    split; [exact ER|]. split; [exact Hq'|]. split; [exact HM|].
    split; [rewrite HP; cbn; rewrite length_app; cbn; lia|].
    rewrite HD, HCD. cbn.
    rewrite dispatched_group_counts_app, copy_destinations_app, HG, HC.
    rewrite <- !app_assoc. split; reflexivity.
Qed.

(** X4: while the cached parameters are not valid or the render target is
    null, [n] turns of the rendering thread on a queue of [n] commands empty
    the queue and make no engine call at all: nothing is allocated,
    dispatched or copied. *)
Theorem draining_without_parameters_does_nothing (n : nat) (w : World) (a : nat)
    (m : FWhiteNoiseCSManager) :
  instance w = Some a ->
  Managers w !! a = Some m ->
  bCachedParamsAreValid m = false \/ RenderTarget (cachedParams m) = None ->
  length (RenderCommandQueue w) = n ->
  repeat_M n RenderingThread_Tick w = Done tt (set_RenderCommandQueue [] w).
Proof.
  intros Hi Hm Hg. apply valid_guard in Hg. revert w Hi Hm.
  induction n as [|n IH]; intros w Hi Hm Hn.
  - destruct (RenderCommandQueue w) eqn:Hq; [|discriminate].
    cbn. f_equal. open_world w. now subst.
  - destruct (RenderCommandQueue w) as [|[] rest] eqn:Hq; [discriminate|].
    cbn [repeat_M]. rewrite (bind_Done _ _ _ _ _ (Tick_early w rest a m Hq Hi Hm Hg)).
    rewrite IH; [|exact Hi|exact Hm|cbn; cbn in Hn; lia].
    reflexivity.
Qed.

(** ** What each operation leaves alone *)

Lemma Get_frame (w w' : World) (a : nat) :
  Get w = Done a w' ->
  Calls w' = Calls w /\ GRenderTargetPool w' = GRenderTargetPool w /\
  RenderCommandQueue w' = RenderCommandQueue w /\
  CurrentThread w' = CurrentThread w.
Proof.
  intros E. destruct (instance w) as [b|] eqn:Hi.
  - rewrite (Get_existing _ _ Hi) in E. injection E as <- <-. tauto.
  - rewrite (Get_first _ Hi) in E. injection E as <- <-. cbn. tauto.
Qed.

Lemma engine_work_0 (w w' : World) :
  Calls w' = Calls w -> GRenderTargetPool w' = GRenderTargetPool w ->
  engine_work 0 w w'.
Proof. unfold engine_work. intros -> ->. repeat split; lia. Qed.

Lemma UpdateResults_accounting (this : nat) (w w' : World) :
  UpdateResults this w = Done tt w' ->
  exists k, k <= 1 /\ engine_work k w w'.
Proof.
  intros E.
  destruct (Managers w !! this) as [m|] eqn:Hm;
    [|rewrite (UpdateResults_bad_this _ _ Hm) in E; discriminate].
  destruct (bCachedParamsAreValid m && to_bool (RenderTarget (cachedParams m))) eqn:Hg.
  - pose proof Hg as Hg'. apply andb_true_iff in Hg' as [Hv Hrt].
    destruct (RenderTarget (cachedParams m)) as [RT|] eqn:HRT; [|discriminate].
    destruct (CurrentThread w) eqn:Hth.
    + rewrite (UpdateResults_off_thread this w m Hm) in E; [discriminate| |assumption].
      now rewrite HRT.
    + rewrite (UpdateResults_dispatch_path this w m RT Hm Hv HRT Hth) in E.
      injection E as <-. exists 1. split; [lia|]. unfold engine_work.
      cbn [Calls GRenderTargetPool set_Calls set_GRenderTargetPool].
      unfold allocations, pass_additions, dispatches, copies.
      rewrite !List.filter_app, !length_app. cbn. repeat split; lia.
  - rewrite (UpdateResults_early _ _ _ Hm Hg) in E. injection E as <-.
    exists 0. split; [lia|]. now apply engine_work_0.
Qed.

(** An operation other than a turn of the rendering thread. *)
Lemma perform_game_thread (op : Operation) (w w' : World) :
  is_tick op = false -> perform op w = Done tt w' ->
  Calls w' = Calls w /\ GRenderTargetPool w' = GRenderTargetPool w /\
  RenderCommandQueue w' =
    (RenderCommandQueue w ++ (if is_begin op then [CaptureCommand] else []))%list.
Proof.
  intros Ht E. destruct op; try discriminate Ht; cbn [perform is_begin] in *;
    apply bind_inv in E as (a & w1 & EG & E);
    destruct (Get_frame _ _ _ EG) as (HC & HP & HQ & _).
  - cbv [mret M_ret] in E. injection E as <-. rewrite app_nil_r. tauto.
  - cbv [BeginRendering ENQUEUE_RENDER_COMMAND modify] in E. injection E as <-.
    cbn. now rewrite HQ.
  - cbv [EndRendering mret M_ret] in E. injection E as <-. rewrite app_nil_r. tauto.
  - destruct (Managers w1 !! a) as [m|] eqn:Hm;
      [|rewrite (UpdateParameters_bad_this _ _ _ Hm) in E; discriminate].
    rewrite (UpdateParameters_writes _ _ _ _ Hm) in E. injection E as <-.
    cbn. rewrite app_nil_r. tauto.
Qed.

Lemma perform_accounting (op : Operation) (w w' : World) :
  perform op w = Done tt w' ->
  exists k, engine_work k w w' /\
    k + length (RenderCommandQueue w') <=
    length (RenderCommandQueue w) + (if is_begin op then 1 else 0).
Proof.
  intros E. destruct (is_tick op) eqn:Ht.
  - destruct op; try discriminate Ht. cbn [perform is_begin] in *.
    destruct (RenderCommandQueue w) as [|cmd rest] eqn:Hq.
    + rewrite (Tick_empty w Hq) in E. injection E as <-.
      exists 0. split; [now apply engine_work_0|]. rewrite Hq. cbn. lia.
    + rewrite (Tick_cons w cmd rest Hq) in E.
      destruct (execute_render_command cmd _) as [[] w2|e] eqn:EX; [|discriminate].
      injection E as <-. destruct cmd. cbn [execute_render_command] in EX.
      apply bind_inv in EX as (a & w3 & EG & EU).
      destruct (Get_frame _ _ _ EG) as (HC & HP & HQ & _).
      destruct (UpdateResults_accounting _ _ _ EU) as (k & Hk & HW).
      destruct (UpdateResults_frame _ _ _ EU) as (_ & _ & HQ2 & _).
      exists k. split.
      * unfold engine_work in *.
        cbn [Calls GRenderTargetPool set_CurrentThread].
        rewrite HC, HP in HW. exact HW.
      * cbn [RenderCommandQueue set_CurrentThread]. rewrite HQ2, HQ. cbn. lia.
  - destruct (perform_game_thread op w w' Ht E) as (HC & HP & HQ).
    exists 0. split; [now apply engine_work_0|].
    rewrite HQ, length_app. destruct (is_begin op); cbn; lia.
Qed.

(** ** Sequences of operations *)

(** X5: operations other than the rendering thread's turns, in any number
    and order, make no engine call and leave the pool alone; they lengthen
    the command queue by exactly one command for each [BeginRendering], and
    [EndRendering] takes none away. *)
Theorem game_thread_operations_only_enqueue (ops : list Operation) (w w' : World) :
  existsb is_tick ops = false ->
  perform_all ops w = Done tt w' ->
  RenderCommandQueue w' =
    (RenderCommandQueue w ++ replicate (count_begin ops) CaptureCommand)%list /\
  Calls w' = Calls w /\
  GRenderTargetPool w' = GRenderTargetPool w.
Proof.
  revert w. induction ops as [|op ops IH]; intros w Ht E.
  - cbv [perform_all mret M_ret] in E. injection E as <-.
    cbn. rewrite app_nil_r. tauto.
  - cbn [existsb] in Ht. apply orb_false_iff in Ht as [Ht1 Ht2].
    cbn [perform_all] in E. apply bind_inv in E as ([] & w1 & E1 & E).
    destruct (perform_game_thread op w w1 Ht1 E1) as (HC & HP & HQ).
    destruct (IH w1 Ht2 E) as (HQ' & HC' & HP').
    rewrite HQ', HC', HP', HQ, HC, HP. split; [|tauto].
    unfold count_begin. cbn [List.filter]. rewrite <- app_assoc.
    destruct (is_begin op); reflexivity.
Qed.

(** X6: over any sequence of operations that returns, the engine calls come
    in whole groups: the allocations, pass additions, dispatches and copies
    made, and the pool elements taken, are the same number [k]; and [k] plus
    the commands still queued is at most the commands queued at the start
    plus the [BeginRendering] calls, so nothing is dispatched that was not
    asked for. *)
Theorem dispatches_are_accounted_for (ops : list Operation) (w w' : World) :
  perform_all ops w = Done tt w' ->
  exists k : nat,
    length (GRenderTargetPool w') = length (GRenderTargetPool w) + k /\
    length (allocations (Calls w')) = length (allocations (Calls w)) + k /\
    length (pass_additions (Calls w')) = length (pass_additions (Calls w)) + k /\
    length (dispatches (Calls w')) = length (dispatches (Calls w)) + k /\
    length (copies (Calls w')) = length (copies (Calls w)) + k /\
    k + length (RenderCommandQueue w') <=
      length (RenderCommandQueue w) + count_begin ops.
Proof.
  revert w. induction ops as [|op ops IH]; intros w E.
  - cbv [perform_all mret M_ret] in E. injection E as <-.
    exists 0. cbn. repeat split; lia.
  - cbn [perform_all] in E. apply bind_inv in E as ([] & w1 & E1 & E).
    destruct (perform_accounting op w w1 E1) as (j & HW1 & HQ1).
    destruct (IH w1 E) as (k & HP & HA & HPa & HD & HC & HQ).
    exists (j + k). unfold engine_work in HW1.
    destruct HW1 as (HP1 & HA1 & HPa1 & HD1 & HC1).
    unfold count_begin in *. cbn [List.filter].
    destruct (is_begin op); cbn [length] in *; repeat split; lia.
Qed.

End MoreManagerProperties.

(** ** The further properties at the sample values *)

Lemma thread_group_count_positive_iff_witness :
  (- 2 ^ 31 <= 100 <= INT32_MAX)%Z /\
  (0 < VX (ThreadGroupCount_of {| X := 100; Y := 33 |}))%Z.
Proof.
  assert (HW : (- 2 ^ 31 <= 100 <= INT32_MAX)%Z) by (unfold INT32_MAX; lia).
  split; [exact HW|].
  apply (proj1 (thread_group_count_positive_iff 100 33 HW)).
  unfold INT32_MAX. lia.
Defined.

Lemma parameters_are_read_when_the_command_runs_witness :
  instance (sample_world GameThread 100 33) = Some 0 /\
  RenderTarget (sample_params 64 64) = Some sample_RenderTarget /\
  exists w',
    (@BeginRendering 0;; UpdateParameters 0 (sample_params 64 64);;
     @RenderingThread_Tick sample_RHIDefinitions sample_ManagerHeader)
      (sample_world GameThread 100 33) = Done tt w' /\
    dispatched_group_counts (Calls w') = [{| VX := 2; VY := 2; VZ := 1 |}].
Proof.
  split; [reflexivity|]. split; [reflexivity|].
  destruct (@parameters_are_read_when_the_command_runs sample_RHIDefinitions
              sample_ManagerHeader 0 0 (sample_world GameThread 100 33) _
              (sample_params 64 64) sample_RenderTarget
              eq_refl eq_refl eq_refl eq_refl)
    as (w' & E & _ & HG & _).
  exists w'. split; [exact E|]. rewrite HG. reflexivity.
Defined.

Lemma draining_dispatches_once_per_command_witness :
  length (RenderCommandQueue
            (set_RenderCommandQueue [CaptureCommand; CaptureCommand]
               (sample_world GameThread 100 33))) = 2 /\
  exists w',
    repeat_M 2 (@RenderingThread_Tick sample_RHIDefinitions sample_ManagerHeader)
      (set_RenderCommandQueue [CaptureCommand; CaptureCommand]
         (sample_world GameThread 100 33)) = Done tt w' /\
    RenderCommandQueue w' = [] /\
    copy_destinations (Calls w') =
      [CallerTexture 7 (PF_Other 2); CallerTexture 7 (PF_Other 2)].
Proof.
  split; [reflexivity|].
  destruct (@draining_dispatches_once_per_command sample_RHIDefinitions
              sample_ManagerHeader 2
              (set_RenderCommandQueue [CaptureCommand; CaptureCommand]
                 (sample_world GameThread 100 33))
              0 _ sample_RenderTarget eq_refl eq_refl eq_refl eq_refl eq_refl)
    as (w' & E & Hq & _ & _ & _ & HC).
  exists w'. split; [exact E|]. split; [exact Hq|]. rewrite HC. reflexivity.
Defined.

Lemma draining_without_parameters_does_nothing_witness :
  repeat_M 2 (@RenderingThread_Tick sample_RHIDefinitions sample_ManagerHeader)
    (set_Managers [@FWhiteNoiseCSManager_new sample_ManagerHeader]
       (set_RenderCommandQueue [CaptureCommand; CaptureCommand]
          (sample_world GameThread 100 33))) =
  Done tt (set_Managers [@FWhiteNoiseCSManager_new sample_ManagerHeader]
             (sample_world GameThread 100 33)).
Proof.
  exact (@draining_without_parameters_does_nothing sample_RHIDefinitions
           sample_ManagerHeader 2
           (set_Managers [@FWhiteNoiseCSManager_new sample_ManagerHeader]
              (set_RenderCommandQueue [CaptureCommand; CaptureCommand]
                 (sample_world GameThread 100 33)))
           0 _ eq_refl eq_refl (or_introl eq_refl) eq_refl).
Defined.

Lemma game_thread_operations_only_enqueue_witness :
  existsb is_tick [Op_BeginRendering; Op_EndRendering; Op_BeginRendering] = false /\
  exists w',
    @perform_all sample_RHIDefinitions sample_ManagerHeader
      [Op_BeginRendering; Op_EndRendering; Op_BeginRendering]
      (StaticInitialization sample_engine) = Done tt w' /\
    RenderCommandQueue w' = [CaptureCommand; CaptureCommand] /\
    Calls w' = [].
Proof.
  split; [reflexivity|].
  assert (E : exists w',
            @perform_all sample_RHIDefinitions sample_ManagerHeader
              [Op_BeginRendering; Op_EndRendering; Op_BeginRendering]
              (StaticInitialization sample_engine) = Done tt w')
    by (eexists; vm_compute; reflexivity).
  destruct E as (w' & E). exists w'. split; [exact E|].
  destruct (@game_thread_operations_only_enqueue sample_RHIDefinitions
              sample_ManagerHeader
              [Op_BeginRendering; Op_EndRendering; Op_BeginRendering]
              (StaticInitialization sample_engine) w' eq_refl E)
    as (HQ & HC & _).
  split; [exact HQ|exact HC].
Defined.

Lemma dispatches_are_accounted_for_witness :
  exists w' k,
    @perform_all sample_RHIDefinitions sample_ManagerHeader
      [Op_UpdateParameters (sample_params 100 33); Op_BeginRendering;
       Op_RenderingThreadTick; Op_RenderingThreadTick]
      (StaticInitialization sample_engine) = Done tt w' /\
    length (dispatches (Calls w')) = k /\ length (copies (Calls w')) = k /\ k <= 1.
Proof.
  assert (E : exists w',
            @perform_all sample_RHIDefinitions sample_ManagerHeader
              [Op_UpdateParameters (sample_params 100 33); Op_BeginRendering;
               Op_RenderingThreadTick; Op_RenderingThreadTick]
              (StaticInitialization sample_engine) = Done tt w')
    by (eexists; vm_compute; reflexivity).
  destruct E as (w' & E). exists w'.
  destruct (@dispatches_are_accounted_for sample_RHIDefinitions sample_ManagerHeader
              [Op_UpdateParameters (sample_params 100 33); Op_BeginRendering;
               Op_RenderingThreadTick; Op_RenderingThreadTick]
              (StaticInitialization sample_engine) w' E)
    as (k & _ & _ & _ & HD & HC & HQ).
  exists k. split; [exact E|]. split; [exact HD|]. split; [exact HC|].
  change (k + length (RenderCommandQueue w') <= 0 + 1) in HQ. lia.
Defined.
